(** * Financial analysis dashboard ([dashboard.py])

    A shallow embedding of the data pipeline of the Streamlit dashboard:
    net-amount derivation per record, month-end resampling (sum, mean,
    median), the weekday table, the two inner joins on the month label
    and the page that [main] renders.

    pandas frames are modelled positionally: a frame has its column
    labels and a list of rows, each row being an index label and one
    value per column.  Numeric cells are IEEE-754 binary64 numbers
    ([float64], Rocq's primitive floats); the reductions that only add
    are written over a number type class so that they can also be read
    with an exact addition. *)

From Stdlib Require Import ZArith List String Ascii Bool Lia FinFun.
From Stdlib Require Import Sorting.Permutation Sorting.Sorted.
From Stdlib Require Import Floats.PrimFloat Numbers.Cyclic.Int63.Uint63.
From Stdlib Require Import Floats.SpecFloat Floats.FloatOps Floats.FloatAxioms.
From Stdlib Require Import Numbers.DecimalString Numbers.DecimalZ.
Import ListNotations.

Local Open Scope string_scope.
Local Open Scope list_scope.

(** ** Exceptions and fallible computations *)

Inductive exn : Type :=
| KeyError (key : string)
| ValueError (msg : string).

Inductive result (T : Type) : Type :=
| Ok (v : T)
| Raise (e : exn).

Arguments Ok {T} v.
Arguments Raise {T} e.

Definition bind {T U : Type} (c : result T) (k : T -> result U) : result U :=
  match c with
  | Ok v => k v
  | Raise e => Raise e
  end.

Notation "x <- c ;; k" := (bind c (fun x => k))
  (at level 61, c at next level, right associativity).

(** [mapM f l] runs [f] on the elements of [l] from left to right and stops
    at the first exception. *)
Fixpoint mapM {T U : Type} (f : T -> result U) (l : list T) : result (list U) :=
  match l with
  | [] => Ok []
  | x :: l' => y <- f x ;; ys <- mapM f l' ;; Ok (y :: ys)
  end.

(** ** Number types of a column *)

Class Dtype (A : Type) : Type := {
  dzero : A;                 (* the literal 0.0 *)
  dnan : A;                  (* the missing value *)
  dadd : A -> A -> A;
  dsub : A -> A -> A;
  deqb : A -> A -> bool;     (* Python's [==] *)
  disna : A -> bool
}.

(** The number type pandas gives a column of decimal amounts. *)
#[export] Instance float64 : Dtype float := {|
  dzero := 0%float;
  dnan := PrimFloat.nan;
  dadd := PrimFloat.add;
  dsub := PrimFloat.sub;
  deqb := PrimFloat.eqb;
  disna := PrimFloat.is_nan
|}.

(** Amounts counted in whole minor units and added without rounding;
    [None] is the missing value and is absorbing, as NaN is. *)
Definition lift2 (f : Z -> Z -> Z) (a b : option Z) : option Z :=
  match a, b with
  | Some x, Some y => Some (f x y)
  | _, _ => None
  end.

Definition exact_eqb (a b : option Z) : bool :=
  match a, b with
  | Some x, Some y => Z.eqb x y
  | _, _ => false
  end.

Definition exact_isna (a : option Z) : bool :=
  match a with
  | Some _ => false
  | None => true
  end.

#[export] Instance exact : Dtype (option Z) := {|
  dzero := Some 0%Z;
  dnan := None;
  dadd := lift2 Z.add;
  dsub := lift2 Z.sub;
  deqb := exact_eqb;
  disna := exact_isna
|}.

(** Addition without rounding: the laws that [float64] lacks. *)
Class ExactAdd (A : Type) `{Dtype A} : Prop := {
  dadd_assoc : forall a b c : A, dadd a (dadd b c) = dadd (dadd a b) c;
  dadd_comm : forall a b : A, dadd a b = dadd b a;
  dadd_zero_l : forall a : A, dadd dzero a = a;
  disna_zero : disna (dzero : A) = false;
  disna_add : forall a b : A, disna (dadd a b) = disna a || disna b
}.

(** ** Rows and net amount *)

(** A row handed to the function given to [DataFrame.apply(axis=1)]:
    the column labels with the row's values. *)
Definition Series (A : Type) : Type := list (string * A).

(** [row[key]] *)
Fixpoint getitem {A : Type} (row : Series A) (key : string) : result A :=
  match row with
  | [] => Raise (KeyError key)
  | (k, v) :: row' => if String.eqb key k then Ok v else getitem row' key
  end.

(** [calculate_net_amount(row, analysis_type)]; [Ok None] is the [None] a
    Python function returns when it ends without a [return]. *)
Definition calculate_net_amount {A : Type} `{Dtype A}
    (row : Series A) (analysis_type : string) : result (option A) :=
  if String.eqb analysis_type "Credit Based" then
    c <- getitem row "credit" ;;
    d <- getitem row "debit" ;;
    if deqb (dsub c d) dzero then Ok (Some dzero)
    else
      c' <- getitem row "credit" ;;
      d' <- getitem row "debit" ;;
      Ok (Some (dsub c' d'))
  else if String.eqb analysis_type "Debit Based" then
    d <- getitem row "debit" ;;
    c <- getitem row "credit" ;;
    if deqb (dsub d c) dzero then Ok (Some dzero)
    else
      d' <- getitem row "debit" ;;
      c' <- getitem row "credit" ;;
      Ok (Some (dsub d' c'))
  else Ok None.

(** The value [calculate_net_amount] keeps for a difference [x] of floats:
    [0.0] when [x == 0.0], else [x]. *)
Definition normalized (x : float) : float :=
  if PrimFloat.eqb x 0 then 0%float else x.

(** ** Calendar dates *)

Inductive Month : Type :=
| January | February | March | April | May | June
| July | August | September | October | November | December.

(** The value of a datetime index entry, to the day. *)
Record Timestamp : Type := mkTimestamp { year : Z; month : Month; day : Z }.

(** Months counted from 0. *)
Definition month_index (m : Month) : Z :=
  match m with
  | January => 0 | February => 1 | March => 2 | April => 3
  | May => 4 | June => 5 | July => 6 | August => 7
  | September => 8 | October => 9 | November => 10 | December => 11
  end%Z.

Definition month_of_index (i : Z) : Month :=
  match i with
  | 0 => January | 1 => February | 2 => March | 3 => April
  | 4 => May | 5 => June | 6 => July | 7 => August
  | 8 => September | 9 => October | 10 => November | _ => December
  end%Z.

(** The rank of a timestamp's calendar month on the time line. *)
Definition month_ordinal (t : Timestamp) : Z :=
  (year t * 12 + month_index (month t))%Z.

Definition is_leap (y : Z) : bool :=
  ((y mod 4 =? 0) && negb (y mod 100 =? 0) || (y mod 400 =? 0))%Z.

Definition days_in_month (y : Z) (m : Month) : Z :=
  match m with
  | February => if is_leap y then 29 else 28
  | April | June | September | November => 30
  | _ => 31
  end%Z.

(** The label of a month-end bin: the last day of the month of rank [o]. *)
Definition month_end (o : Z) : Timestamp :=
  let y := (o / 12)%Z in
  let m := month_of_index (o mod 12) in
  {| year := y; month := m; day := days_in_month y m |}.

(** [a <= b] on timestamps. *)
Definition date_leb (a b : Timestamp) : bool :=
  ((year a <? year b)
   || ((year a =? year b)
       && ((month_index (month a) <? month_index (month b))
           || ((month_index (month a) =? month_index (month b))
               && (day a <=? day b)))))%Z.

(** Days since 1970-01-01 in the proleptic Gregorian calendar. *)
Definition days_from_civil (t : Timestamp) : Z :=
  let m := (month_index (month t) + 1)%Z in
  let y := (if m <=? 2 then year t - 1 else year t)%Z in
  let era := (y / 400)%Z in
  let yoe := (y - era * 400)%Z in
  let mp := ((m + 9) mod 12)%Z in
  let doy := ((153 * mp + 2) / 5 + day t - 1)%Z in
  let doe := (yoe * 365 + yoe / 4 - yoe / 100 + doy)%Z in
  (era * 146097 + doe - 719468)%Z.

(** [DatetimeIndex.dayofweek]: Monday is 0 and Sunday is 6. *)
Definition dayofweek (t : Timestamp) : Z :=
  ((days_from_civil t + 3) mod 7)%Z.

Definition weekday_names : list string :=
  ["Monday"; "Tuesday"; "Wednesday"; "Thursday"; "Friday"; "Saturday"; "Sunday"].

(** [strftime("%A")] *)
Definition strftime_A (t : Timestamp) : string :=
  nth (Z.to_nat (dayofweek t)) weekday_names "Sunday".

Definition month_name (m : Month) : string :=
  match m with
  | January => "January" | February => "February" | March => "March"
  | April => "April" | May => "May" | June => "June"
  | July => "July" | August => "August" | September => "September"
  | October => "October" | November => "November" | December => "December"
  end.

(** [strftime("%B %Y")] *)
Definition strftime_B_Y (t : Timestamp) : string :=
  (month_name (month t) ++ " " ++ NilEmpty.string_of_int (Z.to_int (year t)))%string.

(** ** Data frames *)

Record DataFrame (I A : Type) : Type := mkDataFrame {
  columns : list string;
  rows : list (I * list A)
}.

Arguments mkDataFrame {I A} columns rows.
Arguments columns {I A} d.
Arguments rows {I A} d.

Fixpoint index_of (key : string) (cols : list string) : option nat :=
  match cols with
  | [] => None
  | c :: cols' =>
      if String.eqb key c then Some O
      else option_map S (index_of key cols')
  end.

Fixpoint replace_nth {A : Type} (n : nat) (v : A) (l : list A) : list A :=
  match l, n with
  | [], _ => []
  | _ :: l', O => v :: l'
  | x :: l', S n' => x :: replace_nth n' v l'
  end.

Section Frames.
Context {A : Type} `{Dtype A}.

(** The values of column number [j] in a list of rows. *)
Definition cells {I : Type} (j : nat) (rs : list (I * list A)) : list A :=
  map (fun r => nth j (snd r) dnan) rs.

(** [df[key]] *)
Definition column {I : Type} (key : string) (df : DataFrame I A)
    : result (list A) :=
  match index_of key (columns df) with
  | Some j => Ok (cells j (rows df))
  | None => Raise (KeyError key)
  end.

(** [df.apply(f, axis=1)] *)
Definition df_apply {I T : Type} (f : Series A -> result T)
    (df : DataFrame I A) : result (list T) :=
  mapM (fun r => f (combine (columns df) (snd r))) (rows df).

(** [df[key] = values]: an existing column is overwritten in place, a
    new one is appended. *)
Definition setitem {I : Type} (key : string) (values : list A)
    (df : DataFrame I A) : DataFrame I A :=
  match index_of key (columns df) with
  | Some j =>
      {| columns := columns df;
         rows := map (fun rv => (fst (fst rv), replace_nth j (snd rv) (snd (fst rv))))
                     (combine (rows df) values) |}
  | None =>
      {| columns := columns df ++ [key];
         rows := map (fun rv => (fst (fst rv), snd (fst rv) ++ [snd rv]))
                     (combine (rows df) values) |}
  end.

(** [df.rename(columns={old: new})] *)
Definition rename {I : Type} (old new : string) (df : DataFrame I A)
    : DataFrame I A :=
  {| columns := map (fun c => if String.eqb c old then new else c) (columns df);
     rows := rows df |}.

(** [df[[name1, ..., namek]]] *)
Definition select {I : Type} (names : list string) (df : DataFrame I A)
    : result (DataFrame I A) :=
  js <- mapM (fun n => match index_of n (columns df) with
                       | Some j => Ok j
                       | None => Raise (KeyError n)
                       end) names ;;
  Ok {| columns := names;
        rows := map (fun r => (fst r, map (fun j => nth j (snd r) dnan) js))
                    (rows df) |}.

(** The values that are present. *)
Definition dropna (xs : list A) : list A :=
  filter (fun x => negb (disna x)) xs.

(** [Series.sum()] and the [sum()] of a group: missing values are
    skipped, the rest is added from the left starting at 0. *)
Definition nansum (xs : list A) : A :=
  fold_left dadd (dropna xs) dzero.


(** One reduced value per column for a group of rows. *)
Definition reduce_columns {I : Type} (agg : list A -> A) (ncols : nat)
    (group : list (I * list A)) : list A :=
  map (fun j => agg (cells j group)) (seq 0 ncols).

(** The month-end bins of [resample("ME")]: every calendar month from
    the earliest to the latest one in the index, in order. *)
Definition month_bins (idx : list Timestamp) : list Z :=
  match map month_ordinal idx with
  | [] => []
  | o :: os =>
      let lo := fold_left Z.min os o in
      let hi := fold_left Z.max os o in
      map (fun k => (lo + Z.of_nat k)%Z) (seq 0 (Z.to_nat (hi - lo + 1)))
  end.

(** The rows in date order, rows of the same date staying in the order
    they had: what resampling does to the frame before it bins it. *)
Fixpoint insert_row (r : Timestamp * list A) (rs : list (Timestamp * list A))
    : list (Timestamp * list A) :=
  match rs with
  | [] => [r]
  | r' :: rs' =>
      if date_leb (fst r) (fst r') then r :: rs else r' :: insert_row r rs'
  end.

Definition sort_index (rs : list (Timestamp * list A)) : list (Timestamp * list A) :=
  fold_right insert_row [] rs.

(** [df.resample("ME").agg()]: one row per bin, labelled by the month
    end, reducing the rows whose date falls in the bin's month. *)
Definition resample_ME (agg : list A -> A) (df : DataFrame Timestamp A)
    : DataFrame Timestamp A :=
  {| columns := columns df;
     rows := map (fun o =>
               (month_end o,
                reduce_columns agg (List.length (columns df))
                  (filter (fun r => (month_ordinal (fst r) =? o)%Z)
                          (sort_index (rows df)))))
             (month_bins (map fst (rows df))) |}.

(** [compute_monthly_sum(df)].  [reset_index], [to_datetime] on a column
    that already holds timestamps and [set_index] give back the frame
    that [resample] returned. *)
Definition compute_monthly_sum (df : DataFrame Timestamp A)
    : DataFrame Timestamp A :=
  resample_ME nansum df.
End Frames.

(** Two rows in date order. *)
Definition by_date {A : Type} (a b : Timestamp * list A) : Prop :=
  date_leb (fst a) (fst b) = true.

(** ** Mean and median of a column of floats *)

Definition count_float (n : nat) : float :=
  PrimFloat.of_uint63 (Uint63.of_Z (Z.of_nat n)).

(** The [mean()] of a group: missing values are skipped; no value left
    gives a missing value. *)
Definition nanmean (xs : list float) : float :=
  match dropna xs with
  | [] => PrimFloat.nan
  | ys => (nansum ys / count_float (List.length ys))%float
  end.

Fixpoint insert_sorted (x : float) (l : list float) : list float :=
  match l with
  | [] => [x]
  | y :: l' => if PrimFloat.leb x y then x :: l else y :: insert_sorted x l'
  end.

Definition sort_values (l : list float) : list float :=
  fold_right insert_sorted [] l.

(** The [median()] of a group: the middle value of the sorted values that
    are present, or the mean of the two middle ones. *)
Definition nanmedian (xs : list float) : float :=
  let ys := sort_values (dropna xs) in
  let n := List.length ys in
  match n with
  | O => PrimFloat.nan
  | _ =>
      if Nat.odd n then nth (n / 2) ys PrimFloat.nan
      else ((nth (n / 2 - 1) ys PrimFloat.nan + nth (n / 2) ys PrimFloat.nan) / 2)%float
  end.

(** [compute_monthly_average(df)] *)
Definition compute_monthly_average (df : DataFrame Timestamp float)
    : DataFrame Timestamp float :=
  resample_ME nanmean df.

(** [compute_monthly_median(df)] *)
Definition compute_monthly_median (df : DataFrame Timestamp float)
    : DataFrame Timestamp float :=
  resample_ME nanmedian df.

(** ** Grouping by weekday *)

(** The group labels of [groupby]: each key once, in ascending order. *)
Fixpoint insert_key (k : string) (ks : list string) : list string :=
  match ks with
  | [] => [k]
  | k' :: ks' =>
      if String.eqb k k' then ks
      else if String.leb k k' then k :: ks
      else k' :: insert_key k ks'
  end.

Definition group_keys (keys : list string) : list string :=
  fold_right insert_key [] keys.

Section Weekday.
Context {A : Type} `{Dtype A}.

(** [df.groupby(keys).sum()], [keys] giving the group of each row. *)
Definition groupby_sum {I : Type} (keys : list string) (df : DataFrame I A)
    : DataFrame string A :=
  {| columns := columns df;
     rows := map (fun k =>
               (k,
                reduce_columns nansum (List.length (columns df))
                  (map snd (filter (fun kr => String.eqb (fst kr) k)
                                   (combine keys (rows df))))))
             (group_keys keys) |}.

(** [df.reindex(labels)]: the rows in the order of [labels]; a label the
    frame does not have gets a row of missing values. *)
Definition reindex (labels : list string) (df : DataFrame string A)
    : DataFrame string A :=
  {| columns := columns df;
     rows := map (fun l =>
               (l,
                match find (fun r => String.eqb (fst r) l) (rows df) with
                | Some r => snd r
                | None => repeat dnan (List.length (columns df))
                end))
             labels |}.

Definition re_order : list string :=
  ["Monday"; "Tuesday"; "Wednesday"; "Thursday"; "Friday"].

(** [compute_weekday_sum(df)].  The [day_name] column is the grouping
    key and is left out of the sums; the [day] column added at the end
    repeats the index, which is where this model keeps it. *)
Definition compute_weekday_sum (df : DataFrame Timestamp A)
    : DataFrame string A :=
  let df := {| columns := columns df;
               rows := filter (fun r => (dayofweek (fst r) <? 5)%Z) (rows df) |} in
  let day_name := map (fun r => strftime_A (fst r)) (rows df) in
  let weekday_df := groupby_sum day_name df in
  reindex re_order weekday_df.

(** [pd.merge(left, right, how="inner", on=key)], the key being read off
    the row labels by [kl] and [kr].  Rows come in the order of the left
    frame; a column label that both frames have gets the suffixes [_x]
    and [_y]. *)
Definition merge_inner {IL IR : Type} (kl : IL -> string) (kr : IR -> string)
    (left : DataFrame IL A) (right : DataFrame IR A) : DataFrame string A :=
  let has (l : list string) (c : string) := existsb (String.eqb c) l in
  {| columns :=
       map (fun c => if has (columns right) c then (c ++ "_x")%string else c) (columns left)
       ++ map (fun c => if has (columns left) c then (c ++ "_y")%string else c) (columns right);
     rows :=
       flat_map (fun l =>
         map (fun r => (kl (fst l), snd l ++ snd r))
             (filter (fun r => String.eqb (kl (fst l)) (kr (fst r))) (rows right)))
         (rows left) |}.

(** [df["month_name"] = df.index.strftime("%B %Y")]: the label is kept
    next to the date it is computed from. *)
Definition with_month_name (df : DataFrame Timestamp A)
    : DataFrame (Timestamp * string) A :=
  {| columns := columns df;
     rows := map (fun r => ((fst r, strftime_B_Y (fst r)), snd r)) (rows df) |}.

(** The value a column gets from what the applied function returned. *)
Definition of_return (o : option A) : A :=
  match o with
  | Some v => v
  | None => dnan
  end.
End Weekday.

(** ** The page *)

Inductive element : Type :=
| Title (text : string)
| Markdown (text : string)
| FileUploader (label : string)
| Subheader (text : string)
| BarChart (title : string) (x : list string) (y : list float)
| GroupedBars (traces : list (string * (list string * list float)))
| Exception (e : exn).

Record Page : Type := mkPage {
  top : list element;
  col1 : list element;
  col2 : list element
}.

(** A cell of the uploaded file's [date] column, by what [pd.to_datetime]
    makes of its text. *)
Inductive DateCell : Type :=
| DateText (t : Timestamp)
| OtherText (s : string).

Definition to_datetime (c : DateCell) : result Timestamp :=
  match c with
  | DateText t => Ok t
  | OtherText s => Raise (ValueError s)
  end.

(** The frame [read_csv] returns, the [date] column being the row labels
    and [columns] the other columns of the file. *)
Definition Upload : Type := DataFrame DateCell float.

(** [df.empty]: the frame has no row (the [date] column is always there). *)
Definition empty {I A : Type} (df : DataFrame I A) : bool :=
  match rows df with
  | [] => true
  | _ :: _ => false
  end.

(** [og_df["date"] = pd.to_datetime(og_df["date"])] and
    [og_df.set_index("date")] *)
Definition set_date_index (og_df : Upload) : result (DataFrame Timestamp float) :=
  idx <- mapM to_datetime (map fst (rows og_df)) ;;
  Ok {| columns := columns og_df;
        rows := combine idx (map snd (rows og_df)) |}.

(** [og_df["net_amount"] = og_df.apply(lambda x: calculate_net_amount(x,
    "Credit Based"), axis=1)] *)
Definition with_net_amount {A : Type} `{Dtype A} {I : Type} (og_df : DataFrame I A)
    : result (DataFrame I A) :=
  net_amount <- df_apply (fun x => calculate_net_amount x "Credit Based") og_df ;;
  Ok (setitem "net_amount" (map of_return net_amount) og_df).

(** [merged_df], from the frame with its net amounts (lines 54 to 96). *)
Definition merged_monthly (og_df : DataFrame Timestamp float)
    : result (DataFrame string float) :=
  let monthly_sum_df := compute_monthly_sum og_df in
  let monthly_average_df := compute_monthly_average og_df in
  let monthly_median_df := compute_monthly_median og_df in
  let monthly_sum_df :=
    rename "net_amount" "sum_net_amount" (with_month_name monthly_sum_df) in
  let monthly_average_df :=
    rename "net_amount" "avg_net_amount" (with_month_name monthly_average_df) in
  let monthly_median_df :=
    rename "net_amount" "median_net_amount" (with_month_name monthly_median_df) in
  avg <- select ["avg_net_amount"] monthly_average_df ;;
  let merged_df := merge_inner snd snd monthly_sum_df avg in
  med <- select ["median_net_amount"] monthly_median_df ;;
  let merged_df := merge_inner (fun k => k) snd merged_df med in
  select ["debit"; "credit"; "sum_net_amount"; "avg_net_amount"; "median_net_amount"]
         merged_df.

Definition page_top : list element :=
  [Title " :bar_chart: Financial Analysis Tool";
   Markdown "<style>div.block-container{padding-top:3rem;}</style>";
   FileUploader ":file_folder: To start your analysis upload a file"].

(** [main()], given what the file uploader returned. *)
Definition main (uploaded_file : option Upload) : result Page :=
  let og_df :=
    match uploaded_file with
    | Some f => f
    | None => mkDataFrame [] []
    end in
  if negb (empty og_df) then
    og_df <- set_date_index og_df ;;
    og_df <- with_net_amount og_df ;;
    let weekday_df := compute_weekday_sum og_df in
    merged_df <- merged_monthly og_df ;;
    let month_name := map fst (rows merged_df) in
    sum_net_amount <- column "sum_net_amount" merged_df ;;
    avg_net_amount <- column "avg_net_amount" merged_df ;;
    median_net_amount <- column "median_net_amount" merged_df ;;
    weekday_net_amount <- column "net_amount" weekday_df ;;
    Ok {| top := page_top;
          col1 := [Subheader "Net Amount by Month";
                   BarChart "Net Amount per Month" month_name sum_net_amount;
                   Subheader "Monthly Average & Median";
                   GroupedBars [("Average", (month_name, avg_net_amount));
                                ("Median", (month_name, median_net_amount))]];
          col2 := [Subheader "Net Amount per Weekday";
                   BarChart "Net amount per weekday"
                            (map fst (rows weekday_df)) weekday_net_amount] |}
  else Ok {| top := page_top; col1 := []; col2 := [] |}.

(** What the user sees after a run: Streamlit's script runner catches an
    exception that leaves [main], shows it below what was already drawn
    and keeps serving. *)
Definition run_script (uploaded_file : option Upload) : Page :=
  match main uploaded_file with
  | Ok page => page
  | Raise e => {| top := page_top ++ [Exception e]; col1 := []; col2 := [] |}
  end.

(** The frame [main] aggregates: the upload with its date index and its
    [net_amount] column. *)
Definition derived (uploaded : Upload) : result (DataFrame Timestamp float) :=
  og_df <- set_date_index uploaded ;;
  with_net_amount og_df.

(** Every row of a frame has one value per column. *)
Definition rectangular {I A : Type} (df : DataFrame I A) : Prop :=
  Forall (fun r => List.length (snd r) = List.length (columns df)) (rows df).

(** The number of distinct calendar months among the dates of a frame. *)
Definition distinct_months (idx : list Timestamp) : nat :=
  List.length (nodup Z.eq_dec (map month_ordinal idx)).

(** ** Sample files *)

(** Three records: 2024-01-05 (debit 10, credit 40), 2024-01-20 (5, 5) and
    2024-02-01 (0, 20). *)
Definition three_records : Upload :=
  mkDataFrame ["debit"; "credit"]
    [(DateText (mkTimestamp 2024 January 5), [10; 40]%float);
     (DateText (mkTimestamp 2024 January 20), [5; 5]%float);
     (DateText (mkTimestamp 2024 February 1), [0; 20]%float)].


(** One record in January 2024 and one in March 2024, none in February. *)
Definition january_and_march : Upload :=
  mkDataFrame ["debit"; "credit"]
    [(DateText (mkTimestamp 2024 January 5), [10; 40]%float);
     (DateText (mkTimestamp 2024 March 12), [0; 20]%float)].

(** * Properties *)

(** ** Exceptions *)

Lemma bind_ok {T U : Type} (c : result T) (k : T -> result U) (u : U) :
  bind c k = Ok u -> exists v, c = Ok v /\ k v = Ok u.
Proof.
  destruct c as [v | e]; simpl; intros Hk.
  - exists v. split; [reflexivity | exact Hk].
  - discriminate Hk.
Qed.

Lemma mapM_length {T U : Type} (f : T -> result U) (l : list T) (ys : list U) :
  mapM f l = Ok ys -> List.length ys = List.length l.
Proof.
  revert ys. induction l as [| x l IH]; simpl; intros ys Hm.
  - injection Hm as <-. reflexivity.
  - destruct (f x) as [y | e]; simpl in Hm; [| discriminate Hm].
    destruct (mapM f l) as [ys' | e]; simpl in Hm; [| discriminate Hm].
    injection Hm as <-. simpl. f_equal. apply IH. reflexivity.
Qed.

Lemma mapM_all_ok {T U : Type} (f : T -> result U) (l : list T) :
  (forall x, In x l -> exists y, f x = Ok y) ->
  exists ys, mapM f l = Ok ys.
Proof.
  induction l as [| x l IH]; simpl; intros Hall.
  - exists []. reflexivity.
  - destruct (Hall x (or_introl eq_refl)) as [y Hy].
    destruct IH as [ys Hys]; [intros z Hz; apply Hall; right; exact Hz |].
    exists (y :: ys). rewrite Hy, Hys. reflexivity.
Qed.

Lemma mapM_first_raises {T U : Type} (f : T -> result U) (x : T) (l : list T) (e : exn) :
  f x = Raise e -> mapM f (x :: l) = Raise e.
Proof. intros Hf. simpl. rewrite Hf. reflexivity. Qed.

(** ** Rows *)

Lemma getitem_missing {A : Type} (key : string) (cols : list string) (vals : list A) :
  index_of key cols = None ->
  getitem (combine cols vals) key = Raise (KeyError key).
Proof.
  revert vals. induction cols as [| c cols IH]; intros vals Hidx.
  - reflexivity.
  - simpl in Hidx. destruct vals as [| v vals]; [reflexivity |].
    simpl. destruct (String.eqb key c); [discriminate Hidx |].
    apply IH. destruct (index_of key cols); [discriminate Hidx | reflexivity].
Qed.

Lemma zero_is_not_negative_zero : 0%float <> (-0)%float.
Proof.
  intros Heq. apply (f_equal PrimFloat.classify) in Heq.
  vm_compute in Heq. discriminate Heq.
Qed.

Lemma normalized_not_negative_zero (x : float) : normalized x <> (-0)%float.
Proof.
  unfold normalized. destruct (PrimFloat.eqb x 0) eqn:Hx.
  - exact zero_is_not_negative_zero.
  - intros ->. vm_compute in Hx. discriminate Hx.
Qed.

Lemma credit_based_value (row : Series float) (c d : float) :
  getitem row "credit" = Ok c ->
  getitem row "debit" = Ok d ->
  calculate_net_amount row "Credit Based" = Ok (Some (normalized (c - d))).
Proof.
  intros Hc Hd. unfold calculate_net_amount, normalized. simpl String.eqb. cbv iota.
  rewrite Hc, Hd. simpl.
  destruct (PrimFloat.eqb (c - d) 0); reflexivity.
Qed.

Lemma debit_based_value (row : Series float) (c d : float) :
  getitem row "credit" = Ok c ->
  getitem row "debit" = Ok d ->
  calculate_net_amount row "Debit Based" = Ok (Some (normalized (d - c))).
Proof.
  intros Hc Hd. unfold calculate_net_amount, normalized. simpl String.eqb. cbv iota.
  rewrite Hc, Hd. simpl.
  destruct (PrimFloat.eqb (d - c) 0); reflexivity.
Qed.

(** C1.  For a record with credit [c] and debit [d], the credit-based net
    amount is [c - d], except that a difference equal to zero under
    floating-point equality is stored as [0.0]; the stored value is never
    [-0.0]. *)
Theorem net_amount_credit_based (row : Series float) (c d : float) :
  getitem row "credit" = Ok c ->
  getitem row "debit" = Ok d ->
  exists net : float,
    calculate_net_amount row "Credit Based" = Ok (Some net)
    /\ (PrimFloat.eqb (c - d) 0 = true -> net = 0%float)
    /\ (PrimFloat.eqb (c - d) 0 = false -> net = (c - d)%float)
    /\ net <> (-0)%float.
Proof.
  intros Hc Hd. exists (normalized (c - d)).
  split; [apply credit_based_value; assumption |].
  repeat split.
  - unfold normalized. intros ->. reflexivity.
  - unfold normalized. intros ->. reflexivity.
  - apply normalized_not_negative_zero.
Qed.

(** A record whose credit equals its debit: the difference is stored as
    [0.0]. *)
Lemma net_amount_credit_based_witness :
  exists net : float,
    calculate_net_amount [("debit", 5%float); ("credit", 5%float)] "Credit Based"
      = Ok (Some net)
    /\ (PrimFloat.eqb (5 - 5) 0 = true -> net = 0%float)
    /\ (PrimFloat.eqb (5 - 5) 0 = false -> net = (5 - 5)%float)
    /\ net <> (-0)%float.
Proof.
  apply (net_amount_credit_based [("debit", 5%float); ("credit", 5%float)] 5 5);
    reflexivity.
Defined.

(** ** Columns *)

Lemma index_of_bound (key : string) (cols : list string) (j : nat) :
  index_of key cols = Some j -> j < List.length cols.
Proof.
  revert j. induction cols as [| c cols IH]; simpl; intros j Hj.
  - discriminate Hj.
  - destruct (String.eqb key c).
    + injection Hj as <-. lia.
    + destruct (index_of key cols) as [j' |]; simpl in Hj; [| discriminate Hj].
      injection Hj as <-. specialize (IH j' eq_refl). lia.
Qed.

Lemma index_of_appended (key : string) (cols : list string) :
  index_of key cols = None ->
  index_of key (cols ++ [key]) = Some (List.length cols).
Proof.
  induction cols as [| c cols IH]; simpl; intros Hnone.
  - rewrite String.eqb_refl. reflexivity.
  - destruct (String.eqb key c); [discriminate Hnone |].
    destruct (index_of key cols); [discriminate Hnone |].
    rewrite IH; reflexivity.
Qed.

Lemma nth_replace_nth {A : Type} (j : nat) (v d : A) (l : list A) :
  j < List.length l -> nth j (replace_nth j v l) d = v.
Proof.
  revert j. induction l as [| x l IH]; simpl; intros j Hj; [lia |].
  destruct j as [| j]; simpl; [reflexivity |]. apply IH. lia.
Qed.

Lemma map_combine_values {R V : Type} (P : R -> Prop) (g : R * V -> V)
    (rs : list R) (vs : list V) :
  (forall r v, P r -> g (r, v) = v) ->
  Forall P rs -> List.length vs = List.length rs ->
  map g (combine rs vs) = vs.
Proof.
  intros Hg Hall. revert vs.
  induction Hall as [| r rs Hr _ IH]; intros [| v vs] Hlen; simpl in *;
    try reflexivity; try discriminate Hlen.
  rewrite Hg by exact Hr. f_equal. apply IH. lia.
Qed.

Lemma column_setitem {A : Type} `{Dtype A} {I : Type}
    (key : string) (values : list A) (df : DataFrame I A) :
  rectangular df ->
  List.length values = List.length (rows df) ->
  column key (setitem key values df) = Ok values.
Proof.
  intros Hrect Hlen. unfold column, setitem.
  destruct (index_of key (columns df)) as [j |] eqn:Hidx; simpl.
  - rewrite Hidx. f_equal. unfold cells. rewrite map_map.
    apply map_combine_values
      with (P := fun r : I * list A => List.length (snd r) = List.length (columns df));
      [| exact Hrect | exact Hlen].
    intros r v Hr. simpl. apply nth_replace_nth.
    rewrite Hr. eapply index_of_bound, Hidx.
  - rewrite index_of_appended by exact Hidx. f_equal.
    unfold cells. rewrite map_map.
    apply map_combine_values
      with (P := fun r : I * list A => List.length (snd r) = List.length (columns df));
      [| exact Hrect | exact Hlen].
    intros r v Hr. simpl. rewrite <- Hr, app_nth2, Nat.sub_diag by lia. reflexivity.
Qed.

Lemma mapM_nth_error {T U : Type} (f : T -> result U) (l : list T) (ys : list U)
    (i : nat) (x : T) :
  mapM f l = Ok ys -> nth_error l i = Some x ->
  exists y, f x = Ok y /\ nth_error ys i = Some y.
Proof.
  revert ys i. induction l as [| a l IH]; intros ys i Hm Hi.
  - destruct i; discriminate Hi.
  - simpl in Hm.
    destruct (f a) as [b | e] eqn:Hfa; simpl in Hm; [| discriminate Hm].
    destruct (mapM f l) as [ys' | e] eqn:Hml; simpl in Hm; [| discriminate Hm].
    injection Hm as <-. destruct i as [| i]; simpl in Hi.
    + injection Hi as <-. exists b. split; [exact Hfa | reflexivity].
    + destruct (IH ys' i eq_refl Hi) as [y [Hy Hn]]. exists y. split; assumption.
Qed.

(** C8.  Besides the credit-based strategy, [calculate_net_amount] has a
    debit-based one, chosen by its second argument: the net amount is
    debit minus credit, a difference equal to zero being stored as [0.0]
    (never [-0.0]).  The caller uses the credit-based one: the
    [net_amount] column that [main] attaches holds, for the record, credit
    minus debit normalised in the same way. *)
Theorem net_amount_strategies {I : Type} (og_df : DataFrame I float)
    (i : nat) (r : I * list float) (c d : float) :
  rectangular og_df ->
  nth_error (rows og_df) i = Some r ->
  getitem (combine (columns og_df) (snd r)) "credit" = Ok c ->
  getitem (combine (columns og_df) (snd r)) "debit" = Ok d ->
  (exists net : float,
      calculate_net_amount (combine (columns og_df) (snd r)) "Debit Based"
        = Ok (Some net)
      /\ (PrimFloat.eqb (d - c) 0 = true -> net = 0%float)
      /\ (PrimFloat.eqb (d - c) 0 = false -> net = (d - c)%float)
      /\ net <> (-0)%float)
  /\ calculate_net_amount (combine (columns og_df) (snd r)) "Credit Based"
       = Ok (Some (if PrimFloat.eqb (c - d) 0 then 0%float else (c - d)%float))
  /\ (forall df', with_net_amount og_df = Ok df' ->
        exists nets : list float,
          column "net_amount" df' = Ok nets
          /\ nth_error nets i
             = Some (if PrimFloat.eqb (c - d) 0 then 0%float else (c - d)%float)).
Proof.
  intros Hrect Hi Hc Hd. split; [| split].
  - exists (normalized (d - c)).
    split; [apply debit_based_value; assumption |].
    repeat split.
    + unfold normalized. intros ->. reflexivity.
    + unfold normalized. intros ->. reflexivity.
    + apply normalized_not_negative_zero.
  - apply credit_based_value; assumption.
  - intros df' Hwith. unfold with_net_amount in Hwith.
    apply bind_ok in Hwith. destruct Hwith as [nets [Happly Hset]].
    injection Hset as <-. exists (map of_return nets). split.
    + apply column_setitem; [exact Hrect |].
      rewrite length_map. eapply mapM_length, Happly.
    + unfold df_apply in Happly.
      destruct (mapM_nth_error _ _ _ _ _ Happly Hi) as [y [Hy Hn]].
      rewrite (credit_based_value _ c d Hc Hd) in Hy. injection Hy as <-.
      rewrite nth_error_map, Hn. reflexivity.
Qed.

(** A frame of two records; the second has debit 10 and credit 40. *)
Lemma net_amount_strategies_witness :
  let og_df : DataFrame nat float :=
    mkDataFrame ["debit"; "credit"] [(O, [5; 5]%float); (1, [10; 40]%float)] in
  (exists net : float,
      calculate_net_amount [("debit", 10%float); ("credit", 40%float)] "Debit Based"
        = Ok (Some net)
      /\ (PrimFloat.eqb (10 - 40) 0 = true -> net = 0%float)
      /\ (PrimFloat.eqb (10 - 40) 0 = false -> net = (10 - 40)%float)
      /\ net <> (-0)%float)
  /\ calculate_net_amount [("debit", 10%float); ("credit", 40%float)] "Credit Based"
       = Ok (Some (if PrimFloat.eqb (40 - 10) 0 then 0%float else (40 - 10)%float))
  /\ (forall df', with_net_amount og_df = Ok df' ->
        exists nets : list float,
          column "net_amount" df' = Ok nets
          /\ nth_error nets 1
             = Some (if PrimFloat.eqb (40 - 10) 0 then 0%float else (40 - 10)%float)).
Proof.
  intros og_df.
  apply (net_amount_strategies og_df 1 (1, [10; 40]%float) 40 10).
  - repeat constructor.
  - reflexivity.
  - reflexivity.
  - reflexivity.
Defined.

(** C10.  With an [analysis_type] that is neither ["Credit Based"] nor
    ["Debit Based"], [calculate_net_amount] falls through both branches and
    returns [None]: it raises nothing, whatever the row holds, and computes
    no net amount. *)
Theorem net_amount_unknown_type {A : Type} `{Dtype A}
    (row : Series A) (analysis_type : string) :
  analysis_type <> "Credit Based" ->
  analysis_type <> "Debit Based" ->
  calculate_net_amount row analysis_type = Ok None.
Proof.
  intros Hc Hd. unfold calculate_net_amount.
  destruct (String.eqb_spec analysis_type "Credit Based") as [Heq | _];
    [contradiction |].
  destruct (String.eqb_spec analysis_type "Debit Based") as [Heq | _];
    [contradiction |].
  reflexivity.
Qed.

(** A row without a [credit] column and a misspelt strategy. *)
Lemma net_amount_unknown_type_witness :
  calculate_net_amount [("debit", 10%float)] "credit based" = Ok None.
Proof.
  apply (net_amount_unknown_type [("debit", 10%float)] "credit based");
    discriminate.
Defined.

(** ** Ingestion and the guard on empty frames *)

Lemma dates_coerced (og_df : Upload) :
  (forall r, In r (rows og_df) -> exists t, fst r = DateText t) ->
  exists idx, mapM to_datetime (map fst (rows og_df)) = Ok idx.
Proof.
  intros Hdates. apply mapM_all_ok. intros c Hc.
  apply in_map_iff in Hc. destruct Hc as [r [<- Hr]].
  destruct (Hdates r Hr) as [t ->]. exists t. reflexivity.
Qed.

(** C9.  An uploaded file with at least one record and parseable dates
    but no [credit] column passes the ingestion steps (nothing checks the
    columns beforehand); the derivation of the net amount then fails at
    its first access, [row["credit"]], with a [KeyError].  [main] does not
    handle it: the error reaches the script runner, which shows it on the
    page. *)
Theorem missing_credit_column (og_df : Upload) :
  index_of "credit" (columns og_df) = None ->
  rows og_df <> [] ->
  (forall r, In r (rows og_df) -> exists t, fst r = DateText t) ->
  (exists df, set_date_index og_df = Ok df
              /\ with_net_amount df = Raise (KeyError "credit"))
  /\ main (Some og_df) = Raise (KeyError "credit")
  /\ run_script (Some og_df)
     = {| top := page_top ++ [Exception (KeyError "credit")];
          col1 := []; col2 := [] |}.
Proof.
  intros Hcol Hrows Hdates.
  destruct (dates_coerced og_df Hdates) as [idx Hidx].
  pose proof (mapM_length _ _ _ Hidx) as Hlen. rewrite length_map in Hlen.
  assert (Hset : set_date_index og_df
                 = Ok {| columns := columns og_df;
                         rows := combine idx (map snd (rows og_df)) |}).
  { unfold set_date_index. rewrite Hidx. reflexivity. }
  assert (Hnet : with_net_amount
                   {| columns := columns og_df;
                      rows := combine idx (map snd (rows og_df)) |}
                 = Raise (KeyError "credit")).
  { unfold with_net_amount, df_apply. simpl columns. simpl rows.
    destruct (rows og_df) as [| r rs]; [contradiction |].
    destruct idx as [| t ts]; [discriminate Hlen |].
    simpl combine. rewrite mapM_first_raises with (e := KeyError "credit");
      [reflexivity |].
    unfold calculate_net_amount. simpl String.eqb. cbv iota.
    simpl snd. rewrite getitem_missing by exact Hcol. reflexivity. }
  assert (Hmain : main (Some og_df) = Raise (KeyError "credit")).
  { assert (Hempty : empty og_df = false)
      by (unfold empty; destruct (rows og_df); [contradiction | reflexivity]).
    unfold main. rewrite Hempty. simpl negb. cbv iota.
    rewrite Hset. unfold bind at 1. rewrite Hnet. reflexivity. }
  split; [| split].
  - eexists. split; [exact Hset | exact Hnet].
  - exact Hmain.
  - unfold run_script. rewrite Hmain. reflexivity.
Qed.

(** A file with the columns [date] and [debit] only. *)
Lemma missing_credit_column_witness :
  let og_df : Upload :=
    mkDataFrame ["debit"] [(DateText (mkTimestamp 2024 January 5), [10%float])] in
  (exists df, set_date_index og_df = Ok df
              /\ with_net_amount df = Raise (KeyError "credit"))
  /\ main (Some og_df) = Raise (KeyError "credit")
  /\ run_script (Some og_df)
     = {| top := page_top ++ [Exception (KeyError "credit")];
          col1 := []; col2 := [] |}.
Proof.
  intros og_df. apply (missing_credit_column og_df).
  - reflexivity.
  - discriminate.
  - intros r [<- | []]. eexists. reflexivity.
Defined.



(** ** Filters *)

Lemma filter_all {T : Type} (f : T -> bool) (l : list T) :
  (forall x, In x l -> f x = true) -> filter f l = l.
Proof.
  induction l as [| x l IH]; simpl; intros Hall; [reflexivity |].
  rewrite (Hall x (or_introl eq_refl)). f_equal. apply IH.
  intros y Hy. apply Hall. right. exact Hy.
Qed.



(** ** The weekday table *)

Lemma insert_key_In (k x : string) (ks : list string) :
  In x (insert_key k ks) <-> x = k \/ In x ks.
Proof.
  induction ks as [| k' ks IH]; simpl.
  - intuition.
  - destruct (String.eqb_spec k k') as [-> | Hne].
    + simpl. intuition.
    + destruct (String.leb k k'); simpl; [intuition |].
      rewrite IH. intuition.
Qed.

Lemma group_keys_In (x : string) (keys : list string) :
  In x (group_keys keys) <-> In x keys.
Proof.
  unfold group_keys. induction keys as [| k keys IH]; simpl.
  - reflexivity.
  - rewrite insert_key_In, IH. intuition.
Qed.

Lemma reindex_labels {A : Type} `{Dtype A} (labels : list string)
    (df : DataFrame string A) :
  map fst (rows (reindex labels df)) = labels.
Proof.
  unfold reindex. simpl. rewrite map_map. simpl. apply map_id.
Qed.

Lemma reindex_absent {A : Type} `{Dtype A} (labels : list string)
    (df : DataFrame string A) (name : string) :
  In name labels ->
  (forall g, In g (rows df) -> fst g <> name) ->
  In (name, repeat dnan (List.length (columns df))) (rows (reindex labels df)).
Proof.
  intros Hname Habsent. unfold reindex. cbn [rows].
  apply in_map_iff. exists name. split; [| exact Hname].
  f_equal.
  destruct (find (fun r => String.eqb (fst r) name) (rows df)) as [g |] eqn:Hfind;
    [| reflexivity].
  exfalso. apply find_some in Hfind. destruct Hfind as [Hg Heq].
  apply String.eqb_eq in Heq. exact (Habsent g Hg Heq).
Qed.

Lemma groupby_sum_labels {A : Type} `{Dtype A} {I : Type} (keys : list string)
    (df : DataFrame I A) (g : string * list A) :
  In g (rows (groupby_sum keys df)) -> In (fst g) keys.
Proof.
  unfold groupby_sum. cbn [rows]. intros Hg.
  apply in_map_iff in Hg. destruct Hg as [k [<- Hk]].
  cbn [fst]. exact (proj1 (group_keys_In k keys) Hk).
Qed.

Lemma weekend_is_filtered (t : Timestamp) :
  strftime_A t = "Saturday" \/ strftime_A t = "Sunday" ->
  (dayofweek t <? 5)%Z = false.
Proof.
  unfold strftime_A. intros Hname.
  assert (Hrange : (0 <= dayofweek t < 7)%Z)
    by (unfold dayofweek; apply Z.mod_pos_bound; lia).
  destruct (Z.ltb_spec (dayofweek t) 5) as [Hlt | Hge]; [| reflexivity].
  exfalso.
  assert (Hcases : dayofweek t = 0%Z \/ dayofweek t = 1%Z \/ dayofweek t = 2%Z
                   \/ dayofweek t = 3%Z \/ dayofweek t = 4%Z) by lia.
  destruct Hcases as [E | [E | [E | [E | E]]]]; rewrite E in Hname;
    simpl in Hname; destruct Hname as [Hn | Hn]; discriminate Hn.
Qed.

(** C3.  Whatever weekdays occur in the frame, the weekday table has
    exactly the five rows Monday, Tuesday, Wednesday, Thursday, Friday in
    this order, and a weekday that no record falls on has a row of missing
    values (NaN, which is not zero). *)
Theorem weekday_table_shape (df : DataFrame Timestamp float) :
  map fst (rows (compute_weekday_sum df))
    = ["Monday"; "Tuesday"; "Wednesday"; "Thursday"; "Friday"]
  /\ List.length (rows (compute_weekday_sum df)) = 5
  /\ (forall name : string,
        In name ["Monday"; "Tuesday"; "Wednesday"; "Thursday"; "Friday"] ->
        (forall r, In r (rows df) -> strftime_A (fst r) <> name) ->
        In (name, repeat PrimFloat.nan (List.length (columns df)))
           (rows (compute_weekday_sum df))
        /\ PrimFloat.is_nan PrimFloat.nan = true
        /\ PrimFloat.nan <> 0%float).
Proof.
  split; [| split].
  - unfold compute_weekday_sum. apply reindex_labels.
  - unfold compute_weekday_sum, reindex. reflexivity.
  - intros name Hname Habsent. split; [| split].
    + unfold compute_weekday_sum.
      match goal with
      | |- In _ (rows (reindex _ ?w)) =>
          refine (reindex_absent re_order w name Hname _)
      end.
      intros g Hg Heq. apply groupby_sum_labels in Hg. rewrite Heq in Hg.
      apply in_map_iff in Hg. destruct Hg as [r [Hr Hin]].
      apply filter_In in Hin. exact (Habsent r (proj1 Hin) Hr).
    + reflexivity.
    + intros Heq. apply (f_equal PrimFloat.is_nan) in Heq.
      vm_compute in Heq. discriminate Heq.
Qed.

(** C7.  A record dated on a Saturday or a Sunday contributes nothing to
    the weekday table: with or without it, wherever it stands in the
    frame, the table is the same. *)
Theorem weekend_records_ignored {A : Type} `{Dtype A} (cols : list string)
    (before after : list (Timestamp * list A)) (r : Timestamp * list A) :
  strftime_A (fst r) = "Saturday" \/ strftime_A (fst r) = "Sunday" ->
  compute_weekday_sum (mkDataFrame cols (before ++ r :: after))
    = compute_weekday_sum (mkDataFrame cols (before ++ after))
  /\ compute_weekday_sum (mkDataFrame cols (before ++ r :: after))
     = compute_weekday_sum
         (mkDataFrame cols
            (filter (fun x => (dayofweek (fst x) <? 5)%Z) (before ++ r :: after))).
Proof.
  intros Hweekend. apply weekend_is_filtered in Hweekend. split.
  - unfold compute_weekday_sum. simpl columns. simpl rows.
    rewrite !filter_app. simpl filter. rewrite Hweekend. reflexivity.
  - unfold compute_weekday_sum. cbn [columns rows].
    rewrite (filter_all _ (filter _ _)); [reflexivity |].
    intros x Hx. apply filter_In in Hx. exact (proj2 Hx).
Qed.

(** 2024-01-20 is a Saturday. *)
Lemma weekend_records_ignored_witness :
  compute_weekday_sum
    (mkDataFrame ["net_amount"]
       ([(mkTimestamp 2024 January 5, [30%float])]
        ++ (mkTimestamp 2024 January 20, [7%float])
        :: [(mkTimestamp 2024 February 1, [20%float])]))
  = compute_weekday_sum
      (mkDataFrame ["net_amount"]
         ([(mkTimestamp 2024 January 5, [30%float])]
          ++ [(mkTimestamp 2024 February 1, [20%float])]))
  /\ compute_weekday_sum
       (mkDataFrame ["net_amount"]
          ([(mkTimestamp 2024 January 5, [30%float])]
           ++ (mkTimestamp 2024 January 20, [7%float])
           :: [(mkTimestamp 2024 February 1, [20%float])]))
     = compute_weekday_sum
         (mkDataFrame ["net_amount"]
            (filter (fun x => (dayofweek (fst x) <? 5)%Z)
               ([(mkTimestamp 2024 January 5, [30%float])]
                ++ (mkTimestamp 2024 January 20, [7%float])
                :: [(mkTimestamp 2024 February 1, [20%float])]))).
Proof.
  apply (weekend_records_ignored ["net_amount"]
           [(mkTimestamp 2024 January 5, [30%float])]
           [(mkTimestamp 2024 February 1, [20%float])]
           (mkTimestamp 2024 January 20, [7%float])).
  left. reflexivity.
Defined.

(** ** The three-record scenario *)

(** C6.  For the records 2024-01-05 (debit 10, credit 40), 2024-01-20
    (5, 5) and 2024-02-01 (0, 20) the net amounts are 30, 0.0 and 20; the
    merged monthly table has the rows "January 2024" and "February 2024"
    with the sums 30 and 20, and January has the average 15 and the
    median 15. *)
Theorem three_records_scenario :
  exists og_df merged_df,
    derived three_records = Ok og_df
    /\ column "net_amount" og_df = Ok [30; 0; 20]%float
    /\ merged_monthly og_df = Ok merged_df
    /\ map fst (rows merged_df) = ["January 2024"; "February 2024"]
    /\ column "sum_net_amount" merged_df = Ok [30; 20]%float
    /\ column "avg_net_amount" merged_df = Ok [15; 20]%float
    /\ column "median_net_amount" merged_df = Ok [15; 20]%float
    /\ main (Some three_records)
       = Ok {| top := page_top;
               col1 := [Subheader "Net Amount by Month";
                        BarChart "Net Amount per Month"
                          ["January 2024"; "February 2024"] [30; 20]%float;
                        Subheader "Monthly Average & Median";
                        GroupedBars
                          [("Average",
                            (["January 2024"; "February 2024"], [15; 20]%float));
                           ("Median",
                            (["January 2024"; "February 2024"], [15; 20]%float))]];
               col2 := [Subheader "Net Amount per Weekday";
                        BarChart "Net amount per weekday"
                          ["Monday"; "Tuesday"; "Wednesday"; "Thursday"; "Friday"]
                          [PrimFloat.nan; PrimFloat.nan; PrimFloat.nan; 20; 30]%float] |}.
Proof.
  eexists. eexists.
  split; [vm_compute; reflexivity |].
  split; [vm_compute; reflexivity |].
  split; [vm_compute; reflexivity |].
  repeat split; vm_compute; reflexivity.
Qed.

(** ** Month-end bins *)

Lemma fold_left_min_spec (l : list Z) (a : Z) :
  (fold_left Z.min l a <= a)%Z
  /\ (forall x, In x l -> (fold_left Z.min l a <= x)%Z).
Proof.
  revert a. induction l as [| y l IH]; simpl; intros a.
  - split; [lia | intros x []].
  - destruct (IH (Z.min a y)) as [Ha Hl]. split; [lia |].
    intros x [<- | Hx]; [lia | apply Hl, Hx].
Qed.

Lemma fold_left_max_spec (l : list Z) (a : Z) :
  (a <= fold_left Z.max l a)%Z
  /\ (forall x, In x l -> (x <= fold_left Z.max l a)%Z).
Proof.
  revert a. induction l as [| y l IH]; simpl; intros a.
  - split; [lia | intros x []].
  - destruct (IH (Z.max a y)) as [Ha Hl]. split; [lia |].
    intros x [<- | Hx]; [lia | apply Hl, Hx].
Qed.

Lemma month_bins_In (idx : list Timestamp) (t : Timestamp) :
  In t idx -> In (month_ordinal t) (month_bins idx).
Proof.
  intros Ht. apply (in_map month_ordinal) in Ht. unfold month_bins.
  destruct (map month_ordinal idx) as [| o os]; [destruct Ht |].
  cbv zeta.
  destruct (fold_left_min_spec os o) as [Hlo Hlos].
  destruct (fold_left_max_spec os o) as [Hhi Hhis].
  set (lo := fold_left Z.min os o) in *. set (hi := fold_left Z.max os o) in *.
  assert (Hbounds : (lo <= month_ordinal t <= hi)%Z).
  { destruct Ht as [<- | Ht]; [lia |].
    specialize (Hlos _ Ht). specialize (Hhis _ Ht). lia. }
  apply in_map_iff. exists (Z.to_nat (month_ordinal t - lo)).
  split; [lia |]. apply in_seq. lia.
Qed.

Lemma month_bins_NoDup (idx : list Timestamp) : NoDup (month_bins idx).
Proof.
  unfold month_bins. destruct (map month_ordinal idx) as [| o os]; [constructor |].
  cbv zeta. apply Injective_map_NoDup; [| apply seq_NoDup].
  intros a b Hab. lia.
Qed.

(** ** Conservation of the monthly sums *)

Lemma index_of_In (key : string) (cols : list string) :
  In key cols -> exists j, index_of key cols = Some j.
Proof.
  induction cols as [| c cols IH]; simpl; intros Hin; [destruct Hin |].
  destruct (String.eqb_spec key c) as [_ | Hne].
  - exists O. reflexivity.
  - destruct Hin as [-> | Hin]; [contradiction |].
    destruct (IH Hin) as [j ->]. exists (S j). reflexivity.
Qed.



Section Conservation.
Context {A : Type} `{ExactAdd A}.













Lemma insert_row_In (r x : Timestamp * list A) (rs : list (Timestamp * list A)) :
  In x (insert_row r rs) -> x = r \/ In x rs.
Proof.
  induction rs as [| r' rs IH]; cbn [insert_row].
  - intros [<- | []]. left. reflexivity.
  - destruct (date_leb (fst r) (fst r')).
    + intros [<- | Hx]; [left; reflexivity | right; exact Hx].
    + intros [<- | Hx]; [right; left; reflexivity |].
      destruct (IH Hx) as [-> | Hin]; [left; reflexivity | right; right; exact Hin].
Qed.

Lemma sort_index_In (x : Timestamp * list A) (rs : list (Timestamp * list A)) :
  In x (sort_index rs) -> In x rs.
Proof.
  induction rs as [| r rs IH]; [intros [] |].
  cbn [sort_index fold_right]. fold (sort_index rs). intros Hx.
  destruct (insert_row_In _ _ _ Hx) as [-> | Hin];
    [left; reflexivity | right; apply IH, Hin].
Qed.

End Conservation.

#[export] Instance exact_add : ExactAdd (option Z).
Proof.
  split.
  - intros [a |] [b |] [c |]; simpl; try reflexivity. f_equal. lia.
  - intros [a |] [b |]; simpl; try reflexivity. f_equal. lia.
  - intros [a |]; reflexivity.
  - reflexivity.
  - intros [a |] [b |]; reflexivity.
Qed.




(** ** The merged monthly table *)

Lemma month_index_of_index (i : Z) :
  (0 <= i < 12)%Z -> month_index (month_of_index i) = i.
Proof.
  intros Hi.
  assert (Hcases : (i = 0 \/ i = 1 \/ i = 2 \/ i = 3 \/ i = 4 \/ i = 5 \/ i = 6
                    \/ i = 7 \/ i = 8 \/ i = 9 \/ i = 10 \/ i = 11)%Z) by lia.
  repeat (destruct Hcases as [-> | Hcases]; [reflexivity |]).
  subst i. reflexivity.
Qed.

Lemma month_ordinal_month_end (o : Z) : month_ordinal (month_end o) = o.
Proof.
  unfold month_ordinal, month_end. cbn [year month].
  rewrite month_index_of_index by (apply Z.mod_pos_bound; lia).
  pose proof (Z.div_mod o 12). lia.
Qed.

Lemma year_text_inj (y y' : Z) :
  NilEmpty.string_of_int (Z.to_int y) = NilEmpty.string_of_int (Z.to_int y') ->
  y = y'.
Proof.
  intros Heq. apply DecimalZ.to_int_inj.
  apply (f_equal NilEmpty.int_of_string) in Heq.
  rewrite !NilEmpty.isi in Heq. injection Heq as Heq. exact Heq.
Qed.

Lemma strftime_B_Y_inj (t t' : Timestamp) :
  strftime_B_Y t = strftime_B_Y t' -> year t = year t' /\ month t = month t'.
Proof.
  unfold strftime_B_Y. destruct (month t), (month t'); cbn; intros Heq;
    try discriminate Heq;
    (split; [apply year_text_inj; injection Heq as Heq; exact Heq | reflexivity]).
Qed.

Lemma month_label_inj (o o' : Z) :
  strftime_B_Y (month_end o) = strftime_B_Y (month_end o') -> o = o'.
Proof.
  intros Heq. apply strftime_B_Y_inj in Heq. destruct Heq as [Hy Hm].
  rewrite <- (month_ordinal_month_end o), <- (month_ordinal_month_end o').
  unfold month_ordinal. rewrite Hy, Hm. reflexivity.
Qed.

Lemma month_label_of_record (t : Timestamp) :
  strftime_B_Y (month_end (month_ordinal t)) = strftime_B_Y t.
Proof.
  unfold strftime_B_Y, month_end, month_ordinal. cbn [year month].
  assert (Hm : (0 <= month_index (month t) < 12)%Z) by (destruct (month t); simpl; lia).
  assert (Hdiv : ((year t * 12 + month_index (month t)) / 12 = year t)%Z).
  { symmetry. apply (Z.div_unique_pos _ 12 _ (month_index (month t))); lia. }
  assert (Hmod : ((year t * 12 + month_index (month t)) mod 12
                  = month_index (month t))%Z).
  { symmetry. apply (Z.mod_unique_pos _ 12 (year t)); lia. }
  rewrite Hdiv, Hmod. destruct (month t); reflexivity.
Qed.

Lemma filter_key_absent {R : Type} (key : R -> string) (k : string) (rs : list R) :
  ~ In k (map key rs) -> filter (fun r => String.eqb k (key r)) rs = [].
Proof.
  induction rs as [| r rs IH]; simpl; intros Hk; [reflexivity |].
  destruct (String.eqb_spec k (key r)) as [-> | _].
  - exfalso. apply Hk. left. reflexivity.
  - apply IH. intros Hin. apply Hk. right. exact Hin.
Qed.

Lemma filter_key_unique {R : Type} (key : R -> string) (k : string) (rs : list R) :
  NoDup (map key rs) -> In k (map key rs) ->
  exists r, filter (fun r => String.eqb k (key r)) rs = [r].
Proof.
  induction rs as [| r0 rs IH]; simpl; intros Hnd Hin; [destruct Hin |].
  apply NoDup_cons_iff in Hnd. destruct Hnd as [Hr0 Hnd].
  destruct (String.eqb_spec k (key r0)) as [-> | Hne].
  - exists r0. rewrite filter_key_absent by exact Hr0. reflexivity.
  - destruct Hin as [Heq | Hin]; [congruence |]. apply IH; assumption.
Qed.

Lemma merge_inner_labels {A : Type} `{Dtype A} {IL IR : Type}
    (kl : IL -> string) (kr : IR -> string)
    (left : DataFrame IL A) (right : DataFrame IR A) (names : list string) :
  map (fun l => kl (fst l)) (rows left) = names ->
  map (fun r => kr (fst r)) (rows right) = names ->
  NoDup names ->
  map fst (rows (merge_inner kl kr left right)) = names.
Proof.
  intros Hleft Hright Hnd. unfold merge_inner. cbn [rows].
  assert (Hsub : forall l, In l (rows left) ->
                   In (kl (fst l)) (map (fun r => kr (fst r)) (rows right))).
  { intros l Hl. rewrite Hright, <- Hleft.
    apply (in_map (fun l => kl (fst l))). exact Hl. }
  rewrite <- Hright in Hnd. rewrite <- Hleft. clear Hleft Hright.
  induction (rows left) as [| l ls IH]; [reflexivity |].
  cbn [flat_map map]. rewrite map_app. rewrite IH.
  - destruct (filter_key_unique (fun r => kr (fst r)) (kl (fst l)) (rows right) Hnd)
      as [r ->]; [apply Hsub; left; reflexivity |].
    reflexivity.
  - intros l' Hl'. apply Hsub. right. exact Hl'.
Qed.

Lemma select_labels {A : Type} `{Dtype A} {I : Type} (names : list string)
    (df df' : DataFrame I A) :
  select names df = Ok df' -> map fst (rows df') = map fst (rows df).
Proof.
  unfold select. intros Hsel. apply bind_ok in Hsel.
  destruct Hsel as [js [_ Hdf']]. injection Hdf' as <-. cbn [rows].
  rewrite map_map. reflexivity.
Qed.

Lemma resample_labels {A : Type} `{Dtype A} (agg : list A -> A)
    (df : DataFrame Timestamp A) :
  map (fun r => snd (fst r))
      (rows (with_month_name (resample_ME agg df)))
  = map (fun o => strftime_B_Y (month_end o)) (month_bins (map fst (rows df))).
Proof.
  unfold with_month_name, resample_ME. cbn [rows]. rewrite !map_map. reflexivity.
Qed.

Lemma month_labels_NoDup (idx : list Timestamp) :
  NoDup (map (fun o => strftime_B_Y (month_end o)) (month_bins idx)).
Proof.
  apply Injective_map_NoDup; [| apply month_bins_NoDup].
  intros o o' Heq. apply month_label_inj. exact Heq.
Qed.

Lemma merged_monthly_labels (og_df : DataFrame Timestamp float)
    (merged_df : DataFrame string float) :
  merged_monthly og_df = Ok merged_df ->
  map fst (rows merged_df)
  = map (fun o => strftime_B_Y (month_end o)) (month_bins (map fst (rows og_df))).
Proof.
  unfold merged_monthly. intros Hm.
  apply bind_ok in Hm. destruct Hm as [avg [Havg Hm]].
  apply bind_ok in Hm. destruct Hm as [med [Hmed Hm]].
  apply select_labels in Hm. rewrite Hm.
  apply select_labels in Havg. apply select_labels in Hmed.
  apply merge_inner_labels; [| | apply month_labels_NoDup].
  - cbv beta.
    refine (merge_inner_labels snd snd _ _ _ _ _ (month_labels_NoDup _)).
    + apply (resample_labels nansum).
    + rewrite <- (map_map fst snd), Havg, (map_map fst snd).
      apply (resample_labels nanmean).
  - rewrite <- (map_map fst snd), Hmed, (map_map fst snd).
    apply (resample_labels nanmedian).
Qed.

Lemma select_returns {A : Type} `{Dtype A} {I : Type} (names : list string)
    (df : DataFrame I A) (js : list nat) :
  mapM (fun n => match index_of n (columns df) with
                 | Some j => Ok j
                 | None => Raise (KeyError n)
                 end) names = Ok js ->
  exists df', select names df = Ok df' /\ columns df' = names.
Proof.
  intros Hjs. unfold select. rewrite Hjs. cbn [bind].
  eexists. split; reflexivity.
Qed.

Lemma merge_inner_columns {A : Type} `{Dtype A} {IL IR : Type}
    (kl : IL -> string) (kr : IR -> string)
    (left : DataFrame IL A) (right : DataFrame IR A) (cl cr : list string) :
  columns left = cl -> columns right = cr ->
  columns (merge_inner kl kr left right)
  = map (fun c => if existsb (String.eqb c) cr then (c ++ "_x")%string else c) cl
    ++ map (fun c => if existsb (String.eqb c) cl then (c ++ "_y")%string else c) cr.
Proof. intros <- <-. reflexivity. Qed.

Lemma lookup_all (names cols : list string) :
  (forall n, In n names -> In n cols) ->
  exists js, mapM (fun n => match index_of n cols with
                            | Some j => Ok j
                            | None => Raise (KeyError n)
                            end) names = Ok js.
Proof.
  intros Hall. apply mapM_all_ok. intros n Hn.
  destruct (index_of_In n cols (Hall n Hn)) as [j ->]. exists j. reflexivity.
Qed.

Lemma renamed_In (old new c : string) (cols : list string) :
  In c cols -> c <> old ->
  In c (map (fun c => if String.eqb c old then new else c) cols).
Proof.
  intros Hin Hne. apply in_map_iff. exists c. split; [| exact Hin].
  destruct (String.eqb_spec c old); [contradiction | reflexivity].
Qed.

Lemma renamed_In_new (old new : string) (cols : list string) :
  In old cols -> In new (map (fun c => if String.eqb c old then new else c) cols).
Proof.
  intros Hin. apply in_map_iff. exists old. split; [| exact Hin].
  rewrite String.eqb_refl. reflexivity.
Qed.

Lemma renamed_not_In (old new x : string) (cols : list string) :
  ~ In x cols -> x <> new ->
  ~ In x (map (fun c => if String.eqb c old then new else c) cols).
Proof.
  intros Hnot Hne Hin. apply in_map_iff in Hin. destruct Hin as [c [Hc Hin]].
  destruct (String.eqb c old); [congruence |]. subst c. contradiction.
Qed.

Lemma existsb_eqb_absent (x : string) (cols : list string) :
  ~ In x cols -> existsb (String.eqb x) cols = false.
Proof.
  intros Hnot. destruct (existsb (String.eqb x) cols) eqn:Hex; [| reflexivity].
  exfalso. apply existsb_exists in Hex. destruct Hex as [c [Hc Heq]].
  apply String.eqb_eq in Heq. subst c. contradiction.
Qed.

(** Joining a frame with a one-column frame whose label it does not have
    adds that label and changes no other. *)
Lemma merge_inner_new_column {A : Type} `{Dtype A} {IL IR : Type}
    (kl : IL -> string) (kr : IR -> string)
    (left : DataFrame IL A) (right : DataFrame IR A) (label : string) :
  columns right = [label] ->
  ~ In label (columns left) ->
  columns (merge_inner kl kr left right) = columns left ++ [label].
Proof.
  intros Hright Hnew.
  rewrite (merge_inner_columns kl kr left right _ _ eq_refl Hright).
  cbn [map]. rewrite (existsb_eqb_absent _ _ Hnew). f_equal.
  rewrite <- (map_id (columns left)) at 2. apply map_ext_in.
  intros c Hc. cbn [existsb]. rewrite orb_false_r.
  destruct (String.eqb_spec c label) as [-> | _]; [contradiction | reflexivity].
Qed.

Lemma merged_monthly_returns (og_df : DataFrame Timestamp float) :
  In "debit" (columns og_df) ->
  In "credit" (columns og_df) ->
  In "net_amount" (columns og_df) ->
  ~ In "sum_net_amount" (columns og_df) ->
  ~ In "avg_net_amount" (columns og_df) ->
  ~ In "median_net_amount" (columns og_df) ->
  exists merged_df, merged_monthly og_df = Ok merged_df.
Proof.
  intros Hdebit Hcredit Hnet Hsum Havg_new Hmed_new.
  unfold merged_monthly. cbv zeta.
  destruct (lookup_all ["avg_net_amount"]
              (columns (rename "net_amount" "avg_net_amount"
                          (with_month_name (compute_monthly_average og_df)))))
    as [js_avg Hjs_avg].
  { intros n [<- | []]. apply (renamed_In_new "net_amount"). exact Hnet. }
  destruct (select_returns _ _ _ Hjs_avg) as [avg [Havg Havg_cols]].
  destruct (lookup_all ["median_net_amount"]
              (columns (rename "net_amount" "median_net_amount"
                          (with_month_name (compute_monthly_median og_df)))))
    as [js_med Hjs_med].
  { intros n [<- | []]. apply (renamed_In_new "net_amount"). exact Hnet. }
  destruct (select_returns _ _ _ Hjs_med) as [med [Hmed Hmed_cols]].
  rewrite Havg, Hmed. cbn [bind].
  set (sum_df := rename "net_amount" "sum_net_amount"
                   (with_month_name (compute_monthly_sum og_df))).
  assert (Hsum_cols : columns sum_df
                      = map (fun c => if String.eqb c "net_amount"
                                      then "sum_net_amount" else c) (columns og_df))
    by reflexivity.
  assert (Hm1 : columns (merge_inner snd snd sum_df avg)
                = columns sum_df ++ ["avg_net_amount"]).
  { apply merge_inner_new_column; [exact Havg_cols |].
    rewrite Hsum_cols. apply renamed_not_In; [exact Havg_new | discriminate]. }
  assert (Hm2 : columns (merge_inner (fun k : string => k) snd
                           (merge_inner snd snd sum_df avg) med)
                = (columns sum_df ++ ["avg_net_amount"]) ++ ["median_net_amount"]).
  { rewrite <- Hm1. apply merge_inner_new_column; [exact Hmed_cols |].
    rewrite Hm1, Hsum_cols. intros Hin. apply in_app_or in Hin.
    destruct Hin as [Hin | [Heq | []]]; [| discriminate Heq].
    revert Hin. apply renamed_not_In; [exact Hmed_new | discriminate]. }
  destruct (lookup_all
              ["debit"; "credit"; "sum_net_amount"; "avg_net_amount"; "median_net_amount"]
              (columns (merge_inner (fun k : string => k) snd
                          (merge_inner snd snd sum_df avg) med)))
    as [js Hjs].
  { rewrite Hm2, Hsum_cols.
    intros n [<- | [<- | [<- | [<- | [<- | []]]]]].
    - apply in_or_app. left. apply in_or_app. left.
      apply renamed_In; [exact Hdebit | discriminate].
    - apply in_or_app. left. apply in_or_app. left.
      apply renamed_In; [exact Hcredit | discriminate].
    - apply in_or_app. left. apply in_or_app. left.
      apply (renamed_In_new "net_amount"). exact Hnet.
    - apply in_or_app. left. apply in_or_app. right. left. reflexivity.
    - apply in_or_app. right. left. reflexivity. }
  destruct (select_returns _ _ _ Hjs) as [merged_df [Hmerged _]].
  exists merged_df. exact Hmerged.
Qed.

(** C4, as the code has it.  For a frame that has the columns [debit],
    [credit] and [net_amount] (and none that already bears the label of an
    aggregate), the merged monthly table has one row for every calendar
    month from the earliest to the latest month of the input, in order and
    without duplicates, whether or not the month has records: every month
    that has a record has its row, and the number of rows is the length of
    that span of months. *)
Theorem merged_monthly_rows (og_df : DataFrame Timestamp float) :
  In "debit" (columns og_df) ->
  In "credit" (columns og_df) ->
  In "net_amount" (columns og_df) ->
  ~ In "sum_net_amount" (columns og_df) ->
  ~ In "avg_net_amount" (columns og_df) ->
  ~ In "median_net_amount" (columns og_df) ->
  exists merged_df : DataFrame string float,
    merged_monthly og_df = Ok merged_df
    /\ map fst (rows merged_df)
       = map (fun o => strftime_B_Y (month_end o))
             (month_bins (map fst (rows og_df)))
    /\ NoDup (map fst (rows merged_df))
    /\ (forall r, In r (rows og_df) ->
          In (strftime_B_Y (fst r)) (map fst (rows merged_df)))
    /\ (forall t ts, map fst (rows og_df) = t :: ts ->
          Z.of_nat (List.length (rows merged_df))
          = (fold_left Z.max (map month_ordinal ts) (month_ordinal t)
             - fold_left Z.min (map month_ordinal ts) (month_ordinal t) + 1)%Z).
Proof.
  intros Hdebit Hcredit Hnet Hsum Havg Hmed.
  destruct (merged_monthly_returns og_df Hdebit Hcredit Hnet Hsum Havg Hmed)
    as [merged_df Hm].
  exists merged_df. pose proof (merged_monthly_labels og_df merged_df Hm) as Hlabels.
  split; [exact Hm |]. split; [exact Hlabels |]. split; [| split].
  - rewrite Hlabels. apply month_labels_NoDup.
  - intros r Hr. rewrite Hlabels. rewrite <- month_label_of_record.
    apply (in_map (fun o => strftime_B_Y (month_end o))).
    apply month_bins_In. apply in_map. exact Hr.
  - intros t ts Hidx.
    rewrite <- (length_map fst (rows merged_df)), Hlabels, length_map.
    unfold month_bins. rewrite Hidx. cbn [map]. cbv zeta.
    rewrite length_map, length_seq.
    destruct (fold_left_min_spec (map month_ordinal ts) (month_ordinal t)) as [Hlo _].
    destruct (fold_left_max_spec (map month_ordinal ts) (month_ordinal t)) as [Hhi _].
    lia.
Qed.

(** A record in January 2024 and one in March 2024. *)
Lemma merged_monthly_rows_witness :
  let og_df : DataFrame Timestamp float :=
    mkDataFrame ["debit"; "credit"; "net_amount"]
      [(mkTimestamp 2024 January 5, [10; 40; 30]%float);
       (mkTimestamp 2024 March 12, [0; 20; 20]%float)] in
  exists merged_df : DataFrame string float,
    merged_monthly og_df = Ok merged_df
    /\ map fst (rows merged_df)
       = map (fun o => strftime_B_Y (month_end o))
             (month_bins (map fst (rows og_df)))
    /\ NoDup (map fst (rows merged_df))
    /\ (forall r, In r (rows og_df) ->
          In (strftime_B_Y (fst r)) (map fst (rows merged_df)))
    /\ (forall t ts, map fst (rows og_df) = t :: ts ->
          Z.of_nat (List.length (rows merged_df))
          = (fold_left Z.max (map month_ordinal ts) (month_ordinal t)
             - fold_left Z.min (map month_ordinal ts) (month_ordinal t) + 1)%Z).
Proof.
  intros og_df. apply (merged_monthly_rows og_df).
  - left. reflexivity.
  - right. left. reflexivity.
  - right. right. left. reflexivity.
  - intros [H | [H | [H | []]]]; discriminate H.
  - intros [H | [H | [H | []]]]; discriminate H.
  - intros [H | [H | [H | []]]]; discriminate H.
Defined.

(** C4 as stated fails: the file with one record in January 2024 and one
    in March 2024 has two distinct months, and its merged table has three
    rows, February 2024 among them. *)
Lemma merged_rows_exceed_distinct_months :
  exists (og_df : DataFrame Timestamp float) (merged_df : DataFrame string float),
    derived january_and_march = Ok og_df
    /\ merged_monthly og_df = Ok merged_df
    /\ distinct_months (map fst (rows og_df)) = 2
    /\ List.length (rows merged_df) = 3
    /\ map fst (rows merged_df) = ["January 2024"; "February 2024"; "March 2024"].
Proof.
  eexists. eexists.
  split; [vm_compute; reflexivity |].
  split; [vm_compute; reflexivity |].
  repeat split; vm_compute; reflexivity.
Qed.

(** ** What the page shows *)




(** * Further properties of the pipeline *)

(** ** Failures of ingestion and derivation *)


Lemma index_of_absent (key : string) (cols : list string) :
  ~ In key cols -> index_of key cols = None.
Proof.
  induction cols as [| c cols IH]; simpl; intros Hnot; [reflexivity |].
  destruct (String.eqb_spec key c) as [-> | _].
  - exfalso. apply Hnot. left. reflexivity.
  - rewrite IH; [reflexivity |]. intros Hin. apply Hnot. right. exact Hin.
Qed.

Lemma getitem_present {A : Type} (key : string) (cols : list string)
    (vals : list A) (j : nat) (d : A) :
  index_of key cols = Some j ->
  j < List.length vals ->
  getitem (combine cols vals) key = Ok (nth j vals d).
Proof.
  revert vals j. induction cols as [| c cols IH]; intros vals j Hidx Hj.
  - discriminate Hidx.
  - simpl in Hidx. destruct vals as [| v vals]; [simpl in Hj; lia |].
    simpl. destruct (String.eqb key c).
    + injection Hidx as <-. reflexivity.
    + destruct (index_of key cols) as [j' |] eqn:Hj'; [| discriminate Hidx].
      injection Hidx as <-. simpl in Hj. apply IH; [reflexivity | lia].
Qed.



(** X2.  A file with records, parseable dates and a [credit] column but no
    [debit] column: the derivation reads [row["credit"]] first, then fails
    on [row["debit"]]; [main] ends with [KeyError] on [debit]. *)
Theorem missing_debit_column (og_df : Upload) :
  In "credit" (columns og_df) ->
  ~ In "debit" (columns og_df) ->
  rows og_df <> [] ->
  rectangular og_df ->
  (forall r, In r (rows og_df) -> exists t, fst r = DateText t) ->
  main (Some og_df) = Raise (KeyError "debit").
Proof.
  intros Hcredit Hdebit Hrows Hrect Hdates.
  destruct (dates_coerced og_df Hdates) as [idx Hidx].
  pose proof (mapM_length _ _ _ Hidx) as Hlen. rewrite length_map in Hlen.
  destruct (index_of_In _ _ Hcredit) as [j Hj].
  assert (Hempty : empty og_df = false)
    by (unfold empty; destruct (rows og_df); [contradiction | reflexivity]).
  unfold main. rewrite Hempty. cbn [negb]. cbv iota.
  unfold set_date_index. rewrite Hidx. cbn [bind].
  unfold with_net_amount, df_apply. cbn [columns rows].
  unfold rectangular in Hrect.
  destruct (rows og_df) as [| r rs]; [contradiction |].
  destruct idx as [| t ts]; [discriminate Hlen |].
  cbn [map combine]. rewrite mapM_first_raises with (e := KeyError "debit");
    [reflexivity |].
  unfold calculate_net_amount. simpl String.eqb. cbv iota. cbn [snd].
  rewrite (getitem_present "credit" _ _ j 0%float Hj).
  - cbn [bind]. rewrite getitem_missing by (apply index_of_absent; exact Hdebit).
    reflexivity.
  - apply Forall_inv in Hrect. rewrite Hrect. eapply index_of_bound, Hj.
Qed.

(** A file with the columns [date] and [credit] only. *)
Lemma missing_debit_column_witness :
  main (Some (mkDataFrame ["credit"]
                [(DateText (mkTimestamp 2024 January 5), [40%float])]))
  = Raise (KeyError "debit").
Proof.
  apply (missing_debit_column
           (mkDataFrame ["credit"]
              [(DateText (mkTimestamp 2024 January 5), [40%float])])).
  - left. reflexivity.
  - intros [H | []]. discriminate H.
  - discriminate.
  - repeat constructor.
  - intros r [<- | []]. eexists. reflexivity.
Defined.

(** ** Which differences the zero check changes *)

Lemma SFcompare_zero_Eq (x : spec_float) :
  SFcompare x (S754_zero false) = Some Eq -> exists s, x = S754_zero s.
Proof.
  destruct x as [s | s | | s m e]; simpl; intros Hc.
  - exists s. reflexivity.
  - destruct s; discriminate Hc.
  - discriminate Hc.
  - destruct s; discriminate Hc.
Qed.

Lemma eqb_zero_cases (x : float) :
  PrimFloat.eqb x 0 = true -> x = 0%float \/ x = (-0)%float.
Proof.
  rewrite FloatAxioms.eqb_spec. unfold SFeqb.
  change (Prim2SF 0) with (S754_zero false).
  destruct (SFcompare (Prim2SF x) (S754_zero false)) as [[| |] |] eqn:Hc;
    try discriminate.
  intros _. destruct (SFcompare_zero_Eq _ Hc) as [[|] Hs].
  - right. apply Prim2SF_inj. rewrite Hs. reflexivity.
  - left. apply Prim2SF_inj. rewrite Hs. reflexivity.
Qed.

(** X3.  The zero check changes one value only: the credit-based net
    amount is the float difference [credit - debit] itself, whatever it is
    (infinite and NaN included), unless that difference is [-0.0], which
    is stored as [0.0]. *)
Theorem net_amount_is_the_difference (row : Series float) (c d : float) :
  getitem row "credit" = Ok c ->
  getitem row "debit" = Ok d ->
  ((c - d)%float <> (-0)%float ->
     calculate_net_amount row "Credit Based" = Ok (Some (c - d)%float))
  /\ ((c - d)%float = (-0)%float ->
        calculate_net_amount row "Credit Based" = Ok (Some 0%float)).
Proof.
  intros Hc Hd. rewrite (credit_based_value row c d Hc Hd). unfold normalized.
  split.
  - intros Hneg. destruct (PrimFloat.eqb (c - d) 0) eqn:Hz; [| reflexivity].
    destruct (eqb_zero_cases _ Hz) as [-> | Hm]; [reflexivity | contradiction].
  - intros ->. reflexivity.
Qed.

(** Credit 40 and debit 10: the difference 30 is kept. *)
Lemma net_amount_is_the_difference_witness :
  ((40 - 10)%float <> (-0)%float ->
     calculate_net_amount [("debit", 10%float); ("credit", 40%float)] "Credit Based"
     = Ok (Some (40 - 10)%float))
  /\ ((40 - 10)%float = (-0)%float ->
        calculate_net_amount [("debit", 10%float); ("credit", 40%float)] "Credit Based"
        = Ok (Some 0%float)).
Proof.
  apply (net_amount_is_the_difference
           [("debit", 10%float); ("credit", 40%float)] 40 10); reflexivity.
Defined.

(** ** What deriving the net amount keeps *)

Lemma map_combine_rows {R V W : Type} (h : R * V -> W) (g : R -> W)
    (rs : list R) (vs : list V) :
  (forall r v, In r rs -> h (r, v) = g r) ->
  List.length vs = List.length rs ->
  map h (combine rs vs) = map g rs.
Proof.
  revert vs. induction rs as [| r rs IH]; intros vs Hh Hlen.
  - reflexivity.
  - destruct vs as [| v vs]; [discriminate Hlen |]. simpl.
    rewrite Hh by (left; reflexivity). f_equal.
    apply IH; [| simpl in Hlen; lia].
    intros r' v' Hr'. apply Hh. right. exact Hr'.
Qed.

Lemma index_of_same (k k' : string) (cols : list string) (j : nat) :
  index_of k cols = Some j -> index_of k' cols = Some j -> k = k'.
Proof.
  revert j. induction cols as [| c cols IH]; simpl; intros j Hk Hk'.
  - discriminate Hk.
  - destruct (String.eqb_spec k c) as [-> | _], (String.eqb_spec k' c) as [-> | _].
    + reflexivity.
    + injection Hk as <-.
      destruct (index_of k' cols); simpl in Hk'; discriminate Hk'.
    + injection Hk' as <-.
      destruct (index_of k cols); simpl in Hk; discriminate Hk.
    + destruct (index_of k cols) as [a |]; [| discriminate Hk].
      destruct (index_of k' cols) as [b |]; [| discriminate Hk'].
      simpl in Hk, Hk'. injection Hk as <-. injection Hk' as Hb.
      apply (IH a); [reflexivity | f_equal; lia].
Qed.

Lemma index_of_app (k key : string) (cols : list string) :
  k <> key -> index_of k (cols ++ [key]) = index_of k cols.
Proof.
  intros Hne. induction cols as [| c cols IH]; simpl.
  - destruct (String.eqb_spec k key); [contradiction | reflexivity].
  - destruct (String.eqb k c); [reflexivity |]. rewrite IH. reflexivity.
Qed.

Lemma nth_replace_other {A : Type} (j j0 : nat) (v d : A) (l : list A) :
  j <> j0 -> nth j (replace_nth j0 v l) d = nth j l d.
Proof.
  revert j j0. induction l as [| x l IH]; intros j j0 Hne;
    [destruct j0; reflexivity |].
  destruct j0 as [| j0], j as [| j]; simpl; try reflexivity; try lia.
  apply IH. lia.
Qed.

Lemma length_replace_nth {A : Type} (j : nat) (v : A) (l : list A) :
  List.length (replace_nth j v l) = List.length l.
Proof.
  revert j. induction l as [| x l IH]; intros j; [destruct j; reflexivity |].
  destruct j; simpl; [reflexivity |]. rewrite IH. reflexivity.
Qed.

Section Setitem.
Context {A : Type} `{Dtype A} {I : Type}.
Variables (key : string) (values : list A) (df : DataFrame I A).
Hypothesis Hlen : List.length values = List.length (rows df).

Lemma setitem_index : map fst (rows (setitem key values df)) = map fst (rows df).
Proof.
  unfold setitem. destruct (index_of key (columns df)); cbn [rows];
    rewrite map_map; apply map_combine_rows; try exact Hlen; reflexivity.
Qed.

Lemma setitem_columns :
  columns (setitem key values df)
  = if existsb (String.eqb key) (columns df) then columns df
    else columns df ++ [key].
Proof.
  unfold setitem. destruct (index_of key (columns df)) as [j |] eqn:Hidx.
  - cbn [columns].
    destruct (existsb (String.eqb key) (columns df)) eqn:Hex; [reflexivity |].
    exfalso. assert (Hnot : ~ In key (columns df)).
    { intros Hin.
      assert (Htrue : existsb (String.eqb key) (columns df) = true).
      { apply existsb_exists. exists key.
        split; [exact Hin | apply String.eqb_refl]. }
      congruence. }
    rewrite (index_of_absent _ _ Hnot) in Hidx. discriminate Hidx.
  - cbn [columns]. rewrite existsb_eqb_absent; [reflexivity |].
    intros Hin. destruct (index_of_In _ _ Hin) as [j Hj]. congruence.
Qed.

Lemma setitem_rectangular : rectangular df -> rectangular (setitem key values df).
Proof.
  unfold rectangular. intros Hrect. rewrite Forall_forall in Hrect.
  apply Forall_forall. intros r Hr. unfold setitem in *.
  destruct (index_of key (columns df)) as [j |]; cbn [rows columns] in *;
    apply in_map_iff in Hr; destruct Hr as [[r0 v] [<- Hin]];
    apply in_combine_l in Hin; cbn [fst snd].
  - rewrite length_replace_nth. apply Hrect. exact Hin.
  - rewrite !length_app. cbn [List.length]. rewrite (Hrect r0 Hin). reflexivity.
Qed.

Lemma column_setitem_other (k : string) :
  k <> key -> rectangular df ->
  column k (setitem key values df) = column k df.
Proof.
  intros Hne Hrect. unfold rectangular in Hrect. rewrite Forall_forall in Hrect.
  unfold column, setitem.
  destruct (index_of key (columns df)) as [j0 |] eqn:Hkey; cbn [columns rows].
  - destruct (index_of k (columns df)) as [j |] eqn:Hk; [| reflexivity].
    f_equal. unfold cells. rewrite map_map. apply map_combine_rows; [| exact Hlen].
    intros r v _. cbn [fst snd]. apply nth_replace_other.
    intros ->. apply Hne. exact (index_of_same _ _ _ _ Hk Hkey).
  - rewrite index_of_app by exact Hne.
    destruct (index_of k (columns df)) as [j |] eqn:Hk; [| reflexivity].
    f_equal. unfold cells. rewrite map_map. apply map_combine_rows; [| exact Hlen].
    intros r v Hr. cbn [fst snd]. apply app_nth1.
    rewrite (Hrect r Hr). eapply index_of_bound, Hk.
Qed.
End Setitem.

(** X4.  Deriving the net amount keeps the records, their order, their
    labels and every other column as they were: the frame gets one value
    per record in a [net_amount] column, appended after the columns of the
    file, or written over a [net_amount] column that the file already
    had. *)
Theorem with_net_amount_keeps_records {A : Type} `{Dtype A} {I : Type}
    (og_df df' : DataFrame I A) :
  rectangular og_df ->
  with_net_amount og_df = Ok df' ->
  map fst (rows df') = map fst (rows og_df)
  /\ rectangular df'
  /\ columns df' = (if existsb (String.eqb "net_amount") (columns og_df)
                    then columns og_df
                    else columns og_df ++ ["net_amount"])
  /\ (forall k, k <> "net_amount" -> column k df' = column k og_df).
Proof.
  intros Hrect Hwith. unfold with_net_amount in Hwith.
  apply bind_ok in Hwith. destruct Hwith as [nets [Happly Hset]].
  injection Hset as <-.
  assert (Hlen : List.length (map of_return nets) = List.length (rows og_df))
    by (rewrite length_map; eapply mapM_length, Happly).
  split; [apply setitem_index; exact Hlen |].
  split; [apply setitem_rectangular; assumption |].
  split; [apply setitem_columns |].
  intros k Hk. apply column_setitem_other; assumption.
Qed.

(** Two records; the frame with its net amounts. *)
Lemma with_net_amount_keeps_records_witness :
  let og_df : DataFrame nat float :=
    mkDataFrame ["debit"; "credit"] [(7, [10; 40]%float); (3, [5; 5]%float)] in
  let df' : DataFrame nat float :=
    mkDataFrame ["debit"; "credit"; "net_amount"]
      [(7, [10; 40; 30]%float); (3, [5; 5; 0]%float)] in
  map fst (rows df') = map fst (rows og_df)
  /\ rectangular df'
  /\ columns df' = (if existsb (String.eqb "net_amount") (columns og_df)
                    then columns og_df
                    else columns og_df ++ ["net_amount"])
  /\ (forall k, k <> "net_amount" -> column k df' = column k og_df).
Proof.
  intros og_df df'. apply (with_net_amount_keeps_records og_df df').
  - repeat constructor.
  - reflexivity.
Defined.

(** ** The rows of the weekday table *)






(** ** Well-formed files *)










(** ** The contents of the merged monthly table *)

Lemma filter_unique_key {O R : Type} (key : O -> string) (kr : R -> string)
    (fR : O -> R) (ks : list O) (o : O) :
  (forall o', kr (fR o') = key o') ->
  NoDup (map key ks) -> In o ks ->
  filter (fun r => String.eqb (key o) (kr r)) (map fR ks) = [fR o].
Proof.
  intros Hkey. induction ks as [| o0 ks IH]; intros Hnd Hin; [destruct Hin |].
  cbn [map] in Hnd. apply NoDup_cons_iff in Hnd. destruct Hnd as [Hhead Hnd].
  cbn [map filter]. rewrite Hkey.
  destruct (String.eqb_spec (key o) (key o0)) as [Heq | Hne].
  - destruct Hin as [-> | Hin].
    + f_equal. apply (filter_key_absent kr). rewrite map_map.
      rewrite (map_ext _ key) by (intros; apply Hkey). exact Hhead.
    + exfalso. apply Hhead. rewrite <- Heq. apply in_map. exact Hin.
  - destruct Hin as [-> | Hin]; [contradiction |]. apply IH; assumption.
Qed.

(** Joining two frames that have one row per key, the same keys in the
    same order: the rows are put side by side. *)
Lemma merge_inner_side_by_side {A : Type} `{Dtype A} {IL IR O : Type}
    (kl : IL -> string) (kr : IR -> string) (key : O -> string)
    (fL : O -> IL * list A) (fR : O -> IR * list A)
    (cl cr : list string) (ks : list O) :
  (forall o, kl (fst (fL o)) = key o) ->
  (forall o, kr (fst (fR o)) = key o) ->
  NoDup (map key ks) ->
  rows (merge_inner kl kr (mkDataFrame cl (map fL ks)) (mkDataFrame cr (map fR ks)))
  = map (fun o => (key o, snd (fL o) ++ snd (fR o))) ks.
Proof.
  intros HkL HkR Hnd. unfold merge_inner. cbn [rows].
  assert (Hgen : forall ks', (forall o, In o ks' -> In o ks) ->
            flat_map (fun l =>
                map (fun r => (kl (fst l), snd l ++ snd r))
                    (filter (fun r => String.eqb (kl (fst l)) (kr (fst r)))
                            (map fR ks)))
              (map fL ks')
            = map (fun o => (key o, snd (fL o) ++ snd (fR o))) ks').
  { induction ks' as [| o ks' IH]; intros Hsub; [reflexivity |].
    cbn [map flat_map]. rewrite IH by (intros o' Ho'; apply Hsub; right; exact Ho').
    rewrite HkL.
    rewrite (filter_unique_key key (fun r => kr (fst r)) fR ks o HkR Hnd)
      by (apply Hsub; left; reflexivity).
    reflexivity. }
  apply Hgen. intros o Ho. exact Ho.
Qed.

(** The merged table of a frame with the columns [debit], [credit] and
    [net_amount], written out. *)
Lemma merged_monthly_table (og_df : DataFrame Timestamp float) :
  columns og_df = ["debit"; "credit"; "net_amount"] ->
  merged_monthly og_df
  = Ok {| columns := ["debit"; "credit"; "sum_net_amount"; "avg_net_amount";
                      "median_net_amount"];
          rows :=
            map (fun o =>
                   let records :=
                     filter (fun r => (month_ordinal (fst r) =? o)%Z)
                            (sort_index (rows og_df)) in
                   (strftime_B_Y (month_end o),
                    [nansum (cells 0 records); nansum (cells 1 records);
                     nansum (cells 2 records); nanmean (cells 2 records);
                     nanmedian (cells 2 records)]))
                (month_bins (map fst (rows og_df))) |}.
Proof.
  intros Hcols.
  set (bins := month_bins (map fst (rows og_df))).
  set (records := fun o : Z =>
         filter (fun r : Timestamp * list float => (month_ordinal (fst r) =? o)%Z)
                (sort_index (rows og_df))).
  set (label := fun o : Z => strftime_B_Y (month_end o)).
  assert (Hframe : forall (agg : list float -> float) (new : string),
            rename "net_amount" new (with_month_name (resample_ME agg og_df))
            = mkDataFrame ["debit"; "credit"; new]
                (map (fun o => ((month_end o, label o),
                                [agg (cells 0 (records o)); agg (cells 1 (records o));
                                 agg (cells 2 (records o))])) bins)).
  { intros agg new. unfold rename, with_month_name, resample_ME.
    cbn [columns rows]. rewrite Hcols. rewrite map_map. reflexivity. }
  assert (Hselect : forall (agg : list float -> float) (new : string),
            String.eqb new "debit" = false ->
            String.eqb new "credit" = false ->
            select [new]
              (rename "net_amount" new (with_month_name (resample_ME agg og_df)))
            = Ok (mkDataFrame [new]
                    (map (fun o => ((month_end o, label o),
                                    [agg (cells 2 (records o))])) bins))).
  { intros agg new Hdebit Hcredit. rewrite Hframe. unfold select.
    cbn [columns rows mapM index_of].
    rewrite Hdebit, Hcredit, String.eqb_refl.
    cbn [option_map bind]. rewrite map_map. reflexivity. }
  unfold merged_monthly, compute_monthly_sum, compute_monthly_average,
    compute_monthly_median. cbv zeta.
  rewrite (Hselect nanmean "avg_net_amount"), (Hselect nanmedian "median_net_amount")
    by reflexivity.
  cbn [bind]. rewrite (Hframe nansum "sum_net_amount").
  assert (Hnd : NoDup (map label bins)) by apply month_labels_NoDup.
  set (first_merge :=
         merge_inner snd snd
           (mkDataFrame ["debit"; "credit"; "sum_net_amount"]
              (map (fun o => ((month_end o, label o),
                              [nansum (cells 0 (records o)); nansum (cells 1 (records o));
                               nansum (cells 2 (records o))])) bins))
           (mkDataFrame ["avg_net_amount"]
              (map (fun o => ((month_end o, label o),
                              [nanmean (cells 2 (records o))])) bins))).
  assert (Hfirst : first_merge
                   = mkDataFrame ["debit"; "credit"; "sum_net_amount"; "avg_net_amount"]
                       (map (fun o => (label o,
                               [nansum (cells 0 (records o)); nansum (cells 1 (records o));
                                nansum (cells 2 (records o));
                                nanmean (cells 2 (records o))])) bins)).
  { transitivity (mkDataFrame (columns first_merge) (rows first_merge));
      [destruct first_merge; reflexivity |].
    apply f_equal2; [reflexivity |]. unfold first_merge.
    rewrite (merge_inner_side_by_side snd snd label) by (reflexivity || exact Hnd).
    reflexivity. }
  rewrite Hfirst.
  set (second_merge :=
         merge_inner (fun k : string => k) snd
           (mkDataFrame ["debit"; "credit"; "sum_net_amount"; "avg_net_amount"]
              (map (fun o => (label o,
                      [nansum (cells 0 (records o)); nansum (cells 1 (records o));
                       nansum (cells 2 (records o));
                       nanmean (cells 2 (records o))])) bins))
           (mkDataFrame ["median_net_amount"]
              (map (fun o => ((month_end o, label o),
                              [nanmedian (cells 2 (records o))])) bins))).
  assert (Hsecond : second_merge
                    = mkDataFrame ["debit"; "credit"; "sum_net_amount"; "avg_net_amount";
                                   "median_net_amount"]
                        (map (fun o => (label o,
                                [nansum (cells 0 (records o)); nansum (cells 1 (records o));
                                 nansum (cells 2 (records o));
                                 nanmean (cells 2 (records o));
                                 nanmedian (cells 2 (records o))])) bins)).
  { transitivity (mkDataFrame (columns second_merge) (rows second_merge));
      [destruct second_merge; reflexivity |].
    apply f_equal2; [reflexivity |]. unfold second_merge.
    rewrite (merge_inner_side_by_side (fun k : string => k) snd label)
      by (reflexivity || exact Hnd).
    reflexivity. }
  rewrite Hsecond. unfold select. cbn [columns rows mapM index_of].
  cbn [String.eqb Ascii.eqb Bool.eqb option_map bind].
  rewrite map_map. reflexivity.
Qed.

Lemma filter_nothing {T : Type} (f : T -> bool) (l : list T) :
  (forall x, In x l -> f x = false) -> filter f l = [].
Proof.
  induction l as [| x l IH]; intros Hall; [reflexivity |].
  cbn [filter]. rewrite (Hall x (or_introl eq_refl)). apply IH.
  intros y Hy. apply Hall. right. exact Hy.
Qed.



(** X8.  A calendar month between the earliest and the latest date that
    has no record still has its row in the merged table: the sums of
    debit, credit and net amount are 0, the average and the median of the
    net amount are missing (NaN). *)
Theorem month_without_records (og_df : DataFrame Timestamp float) (o : Z) :
  columns og_df = ["debit"; "credit"; "net_amount"] ->
  In o (month_bins (map fst (rows og_df))) ->
  (forall r, In r (rows og_df) -> month_ordinal (fst r) <> o) ->
  exists merged_df : DataFrame string float,
    merged_monthly og_df = Ok merged_df
    /\ In (strftime_B_Y (month_end o),
           [0; 0; 0; PrimFloat.nan; PrimFloat.nan]%float)
          (rows merged_df).
Proof.
  intros Hcols Ho Hnone. eexists.
  split; [apply merged_monthly_table; exact Hcols |].
  cbn [rows]. apply in_map_iff. exists o. split; [| exact Ho].
  cbv zeta. rewrite filter_nothing; [reflexivity |].
  intros r Hr. apply sort_index_In in Hr. apply Z.eqb_neq. apply Hnone. exact Hr.
Qed.

(** Records in January and March 2024: February 2024 is month number
    24289, counting months from year 0. *)
Lemma month_without_records_witness :
  let og_df : DataFrame Timestamp float :=
    mkDataFrame ["debit"; "credit"; "net_amount"]
      [(mkTimestamp 2024 January 5, [10; 40; 30]%float);
       (mkTimestamp 2024 March 12, [0; 20; 20]%float)] in
  exists merged_df : DataFrame string float,
    merged_monthly og_df = Ok merged_df
    /\ In (strftime_B_Y (month_end 24289),
           [0; 0; 0; PrimFloat.nan; PrimFloat.nan]%float)
          (rows merged_df).
Proof.
  intros og_df. apply (month_without_records og_df 24289).
  - reflexivity.
  - right. left. reflexivity.
  - intros r [<- | [<- | []]]; discriminate.
Defined.

(** ** Missing amounts *)

Lemma sub_nan_l (d : float) : (PrimFloat.nan - d)%float = PrimFloat.nan.
Proof.
  apply Prim2SF_inj. rewrite sub_spec.
  change (Prim2SF PrimFloat.nan) with S754_nan. reflexivity.
Qed.

Lemma sub_nan_r (c : float) : (c - PrimFloat.nan)%float = PrimFloat.nan.
Proof.
  apply Prim2SF_inj. rewrite sub_spec.
  change (Prim2SF PrimFloat.nan) with S754_nan.
  destruct (Prim2SF c); reflexivity.
Qed.

(** X9.  A record whose credit or debit is missing (NaN) gets a missing
    net amount under both strategies: the zero check does not turn it into
    0.0, and the sums, which skip missing values, leave it out. *)
Theorem missing_amount_gives_missing_net (row : Series float) (c d : float)
    (others : list float) :
  getitem row "credit" = Ok c ->
  getitem row "debit" = Ok d ->
  c = PrimFloat.nan \/ d = PrimFloat.nan ->
  calculate_net_amount row "Credit Based" = Ok (Some PrimFloat.nan)
  /\ calculate_net_amount row "Debit Based" = Ok (Some PrimFloat.nan)
  /\ nansum (PrimFloat.nan :: others) = nansum others.
Proof.
  intros Hc Hd Hnan.
  rewrite (credit_based_value row c d Hc Hd), (debit_based_value row c d Hc Hd).
  assert (Hcd : (c - d)%float = PrimFloat.nan)
    by (destruct Hnan as [-> | ->]; [apply sub_nan_l | apply sub_nan_r]).
  assert (Hdc : (d - c)%float = PrimFloat.nan)
    by (destruct Hnan as [-> | ->]; [apply sub_nan_r | apply sub_nan_l]).
  rewrite Hcd, Hdc. repeat split.
Qed.

(** A record without a debit. *)
Lemma missing_amount_gives_missing_net_witness :
  calculate_net_amount [("debit", PrimFloat.nan); ("credit", 40%float)] "Credit Based"
    = Ok (Some PrimFloat.nan)
  /\ calculate_net_amount [("debit", PrimFloat.nan); ("credit", 40%float)] "Debit Based"
     = Ok (Some PrimFloat.nan)
  /\ nansum (PrimFloat.nan :: [30; 20]%float) = nansum [30; 20]%float.
Proof.
  apply (missing_amount_gives_missing_net
           [("debit", PrimFloat.nan); ("credit", 40%float)] 40 PrimFloat.nan
           [30; 20]%float).
  - reflexivity.
  - reflexivity.
  - right. reflexivity.
Defined.

(** ** Conservation of the weekday sums *)



Section WeekdayConservation.
Context {A : Type} `{ExactAdd A}.



End WeekdayConservation.



(** ** The order of the records in the file *)

Lemma month_index_inj (m m' : Month) : month_index m = month_index m' -> m = m'.
Proof. destruct m, m'; simpl; intros Heq; try reflexivity; discriminate Heq. Qed.

Lemma date_leb_iff (a b : Timestamp) :
  date_leb a b = true <->
  (year a < year b
   \/ (year a = year b
       /\ (month_index (month a) < month_index (month b)
           \/ (month_index (month a) = month_index (month b) /\ day a <= day b))))%Z.
Proof.
  unfold date_leb.
  repeat (rewrite orb_true_iff || rewrite andb_true_iff).
  rewrite !Z.ltb_lt, !Z.eqb_eq, Z.leb_le. reflexivity.
Qed.

Lemma date_leb_total (a b : Timestamp) :
  date_leb a b = true \/ date_leb b a = true.
Proof. rewrite !date_leb_iff. lia. Qed.

Lemma date_leb_trans (a b c : Timestamp) :
  date_leb a b = true -> date_leb b c = true -> date_leb a c = true.
Proof. rewrite !date_leb_iff. lia. Qed.

Lemma date_leb_antisym (a b : Timestamp) :
  date_leb a b = true -> date_leb b a = true -> a = b.
Proof.
  rewrite !date_leb_iff. intros Hab Hba.
  assert (Hy : year a = year b) by lia.
  assert (Hm : month_index (month a) = month_index (month b)) by lia.
  assert (Hd : day a = day b) by lia.
  apply month_index_inj in Hm.
  destruct a, b. cbn in *. subst. reflexivity.
Qed.

Section FileOrder.
Context {A : Type}.

Lemma insert_row_sorted (r : Timestamp * list A) (rs : list (Timestamp * list A)) :
  StronglySorted by_date rs -> StronglySorted by_date (insert_row r rs).
Proof.
  induction 1 as [| r' rs Hsorted IH Hall]; cbn [insert_row].
  - constructor; constructor.
  - destruct (date_leb (fst r) (fst r')) eqn:Hleb.
    + constructor; [constructor; assumption |].
      constructor; [exact Hleb |].
      eapply Forall_impl; [| exact Hall]. intros x Hx.
      eapply date_leb_trans; [exact Hleb | exact Hx].
    + constructor; [exact IH |].
      assert (Hr : by_date r' r).
      { destruct (date_leb_total (fst r) (fst r')) as [Hc | Hc]; [congruence | exact Hc]. }
      apply Forall_forall. intros x Hx. apply insert_row_In in Hx.
      destruct Hx as [-> | Hx]; [exact Hr |].
      rewrite Forall_forall in Hall. apply Hall. exact Hx.
Qed.

Lemma sort_index_sorted (rs : list (Timestamp * list A)) :
  StronglySorted by_date (sort_index rs).
Proof.
  induction rs as [| r rs IH]; [constructor |].
  cbn [sort_index fold_right]. apply insert_row_sorted. exact IH.
Qed.

Lemma insert_row_Permutation (r : Timestamp * list A) (rs : list (Timestamp * list A)) :
  Permutation (insert_row r rs) (r :: rs).
Proof.
  induction rs as [| r' rs IH]; cbn [insert_row]; [reflexivity |].
  destruct (date_leb (fst r) (fst r')); [reflexivity |].
  rewrite IH. apply perm_swap.
Qed.

Lemma sort_index_Permutation (rs : list (Timestamp * list A)) :
  Permutation (sort_index rs) rs.
Proof.
  induction rs as [| r rs IH]; [reflexivity |].
  cbn [sort_index fold_right]. rewrite insert_row_Permutation.
  apply perm_skip. exact IH.
Qed.

Lemma same_date_same_row (rs : list (Timestamp * list A)) (a b : Timestamp * list A) :
  NoDup (map fst rs) -> In a rs -> In b rs -> fst a = fst b -> a = b.
Proof.
  induction rs as [| r rs IH]; intros Hnd Ha Hb Heq; [destruct Ha |].
  cbn [map] in Hnd. apply NoDup_cons_iff in Hnd. destruct Hnd as [Hhead Hnd].
  destruct Ha as [-> | Ha], Hb as [-> | Hb].
  - reflexivity.
  - exfalso. apply Hhead. rewrite Heq. apply in_map. exact Hb.
  - exfalso. apply Hhead. rewrite <- Heq. apply in_map. exact Ha.
  - apply IH; assumption.
Qed.

Lemma sorted_rows_unique (l1 l2 : list (Timestamp * list A)) :
  StronglySorted by_date l1 -> StronglySorted by_date l2 ->
  Permutation l1 l2 -> NoDup (map fst l1) -> l1 = l2.
Proof.
  intros Hs1. revert l2. induction Hs1 as [| a l1 Hs1 IH Ha]; intros l2 Hs2 Hperm Hnd.
  - apply Permutation_nil in Hperm. symmetry. exact Hperm.
  - destruct Hs2 as [| b l2 Hs2 Hb].
    + apply Permutation_sym, Permutation_nil in Hperm. discriminate Hperm.
    + assert (Hab : a = b).
      { assert (Hb_in : In b (a :: l1))
          by (apply (Permutation_in b (Permutation_sym Hperm)); left; reflexivity).
        assert (Ha_in : In a (b :: l2))
          by (apply (Permutation_in a Hperm); left; reflexivity).
        destruct Hb_in as [Heq | Hb_in]; [exact Heq |].
        destruct Ha_in as [Heq | Ha_in]; [symmetry; exact Heq |].
        rewrite Forall_forall in Ha, Hb.
        apply (same_date_same_row (a :: l1)); [exact Hnd | left; reflexivity
                                              | right; exact Hb_in |].
        apply date_leb_antisym; [apply Ha, Hb_in | apply Hb, Ha_in]. }
      subst b. f_equal. apply IH; [exact Hs2 | |].
      * eapply Permutation_cons_inv. exact Hperm.
      * cbn [map] in Hnd. apply NoDup_cons_iff in Hnd. exact (proj2 Hnd).
Qed.

Lemma sort_index_of_permutation (rs rs' : list (Timestamp * list A)) :
  Permutation rs rs' -> NoDup (map fst rs) -> sort_index rs = sort_index rs'.
Proof.
  intros Hperm Hnd. apply sorted_rows_unique; try apply sort_index_sorted.
  - rewrite !sort_index_Permutation. exact Hperm.
  - eapply Permutation_NoDup; [| exact Hnd].
    apply Permutation_map. symmetry. apply sort_index_Permutation.
Qed.
End FileOrder.

Lemma fold_left_min_In (l : list Z) (a : Z) : In (fold_left Z.min l a) (a :: l).
Proof.
  revert a. induction l as [| y l IH]; intros a; [left; reflexivity |].
  cbn [fold_left]. destruct (IH (Z.min a y)) as [Heq | Hin].
  - rewrite <- Heq. destruct (Z.min_spec a y) as [[_ ->] | [_ ->]];
      [left | right; left]; reflexivity.
  - right. right. exact Hin.
Qed.

Lemma fold_left_max_In (l : list Z) (a : Z) : In (fold_left Z.max l a) (a :: l).
Proof.
  revert a. induction l as [| y l IH]; intros a; [left; reflexivity |].
  cbn [fold_left]. destruct (IH (Z.max a y)) as [Heq | Hin].
  - rewrite <- Heq. destruct (Z.max_spec a y) as [[_ ->] | [_ ->]];
      [right; left | left]; reflexivity.
  - right. right. exact Hin.
Qed.

Lemma month_bins_of_permutation (idx idx' : list Timestamp) :
  Permutation idx idx' -> month_bins idx = month_bins idx'.
Proof.
  intros Hperm. apply (Permutation_map month_ordinal) in Hperm.
  unfold month_bins.
  destruct (map month_ordinal idx) as [| o os],
           (map month_ordinal idx') as [| o' os'].
  - reflexivity.
  - apply Permutation_nil in Hperm. discriminate Hperm.
  - apply Permutation_sym, Permutation_nil in Hperm. discriminate Hperm.
  - cbv zeta.
    destruct (fold_left_min_spec os o) as [Hlo Hlos].
    destruct (fold_left_min_spec os' o') as [Hlo' Hlos'].
    destruct (fold_left_max_spec os o) as [Hhi His].
    destruct (fold_left_max_spec os' o') as [Hhi' His'].
    pose proof (Permutation_in _ Hperm (fold_left_min_In os o)) as Hmin.
    pose proof (Permutation_in _ (Permutation_sym Hperm) (fold_left_min_In os' o'))
      as Hmin'.
    pose proof (Permutation_in _ Hperm (fold_left_max_In os o)) as Hmax.
    pose proof (Permutation_in _ (Permutation_sym Hperm) (fold_left_max_In os' o'))
      as Hmax'.
    assert (Elo : fold_left Z.min os o = fold_left Z.min os' o').
    { destruct Hmin as [E | Hmin]; destruct Hmin' as [E' | Hmin'];
        try specialize (Hlos' _ Hmin); try specialize (Hlos _ Hmin'); lia. }
    assert (Ehi : fold_left Z.max os o = fold_left Z.max os' o').
    { destruct Hmax as [E | Hmax]; destruct Hmax' as [E' | Hmax'];
        try specialize (His' _ Hmax); try specialize (His _ Hmax'); lia. }
    rewrite Elo, Ehi. reflexivity.
Qed.

Lemma resample_of_permutation {A : Type} `{Dtype A} (agg : list A -> A)
    (cols : list string) (rs rs' : list (Timestamp * list A)) :
  Permutation rs rs' -> NoDup (map fst rs) ->
  resample_ME agg (mkDataFrame cols rs) = resample_ME agg (mkDataFrame cols rs').
Proof.
  intros Hperm Hnd. unfold resample_ME. cbn [columns rows].
  rewrite (sort_index_of_permutation rs rs' Hperm Hnd).
  rewrite (month_bins_of_permutation (map fst rs) (map fst rs'))
    by (apply Permutation_map; exact Hperm).
  reflexivity.
Qed.

(** X11.  For a file in which no two records have the same date, the
    monthly tables do not depend on the order of the records in the file:
    the sums, averages and medians per month, and the merged table built
    from them, are the same for every reordering of the records. *)
Theorem monthly_tables_ignore_file_order (cols : list string)
    (rs rs' : list (Timestamp * list float)) :
  Permutation rs rs' ->
  NoDup (map fst rs) ->
  compute_monthly_sum (mkDataFrame cols rs) = compute_monthly_sum (mkDataFrame cols rs')
  /\ compute_monthly_average (mkDataFrame cols rs)
     = compute_monthly_average (mkDataFrame cols rs')
  /\ compute_monthly_median (mkDataFrame cols rs)
     = compute_monthly_median (mkDataFrame cols rs')
  /\ merged_monthly (mkDataFrame cols rs) = merged_monthly (mkDataFrame cols rs').
Proof.
  intros Hperm Hnd.
  pose proof (resample_of_permutation nansum cols rs rs' Hperm Hnd) as Hsum.
  pose proof (resample_of_permutation nanmean cols rs rs' Hperm Hnd) as Havg.
  pose proof (resample_of_permutation nanmedian cols rs rs' Hperm Hnd) as Hmed.
  split; [exact Hsum |]. split; [exact Havg |]. split; [exact Hmed |].
  unfold merged_monthly, compute_monthly_sum, compute_monthly_average,
    compute_monthly_median.
  rewrite Hsum, Havg, Hmed. reflexivity.
Qed.

(** The three records of the scenario, and the same in another order. *)
Lemma monthly_tables_ignore_file_order_witness :
  let rs : list (Timestamp * list float) :=
    [(mkTimestamp 2024 January 5, [10; 40; 30]%float);
     (mkTimestamp 2024 January 20, [5; 5; 0]%float);
     (mkTimestamp 2024 February 1, [0; 20; 20]%float)] in
  let rs' : list (Timestamp * list float) :=
    [(mkTimestamp 2024 January 20, [5; 5; 0]%float);
     (mkTimestamp 2024 January 5, [10; 40; 30]%float);
     (mkTimestamp 2024 February 1, [0; 20; 20]%float)] in
  let cols := ["debit"; "credit"; "net_amount"] in
  compute_monthly_sum (mkDataFrame cols rs) = compute_monthly_sum (mkDataFrame cols rs')
  /\ compute_monthly_average (mkDataFrame cols rs)
     = compute_monthly_average (mkDataFrame cols rs')
  /\ compute_monthly_median (mkDataFrame cols rs)
     = compute_monthly_median (mkDataFrame cols rs')
  /\ merged_monthly (mkDataFrame cols rs) = merged_monthly (mkDataFrame cols rs').
Proof.
  intros rs rs' cols. apply (monthly_tables_ignore_file_order cols rs rs').
  - apply perm_swap.
  - repeat (constructor; [cbn; intuition discriminate |]). constructor.
Defined.

(** ** The shape of the page *)

Lemma column_length {A : Type} `{Dtype A} {I : Type} (key : string)
    (df : DataFrame I A) (xs : list A) :
  column key df = Ok xs -> List.length xs = List.length (rows df).
Proof.
  unfold column. destruct (index_of key (columns df)); intros Hcol;
    [| discriminate Hcol].
  injection Hcol as <-. unfold cells. apply length_map.
Qed.

(** X12.  A page that [main] returns has either no chart at all (no file,
    or a file without records) or all three charts; in each chart every
    label has its value (the list of values is as long as the list of
    labels), and the weekday chart always has the five positions Monday to
    Friday. *)
Theorem page_is_complete (uploaded_file : option Upload) (p : Page) :
  main uploaded_file = Ok p ->
  p = {| top := page_top; col1 := []; col2 := [] |}
  \/ exists (months : list string) (sums avgs meds weekdays : list float),
       p = {| top := page_top;
              col1 := [Subheader "Net Amount by Month";
                       BarChart "Net Amount per Month" months sums;
                       Subheader "Monthly Average & Median";
                       GroupedBars [("Average", (months, avgs));
                                    ("Median", (months, meds))]];
              col2 := [Subheader "Net Amount per Weekday";
                       BarChart "Net amount per weekday"
                         ["Monday"; "Tuesday"; "Wednesday"; "Thursday"; "Friday"]
                         weekdays] |}
       /\ List.length sums = List.length months
       /\ List.length avgs = List.length months
       /\ List.length meds = List.length months
       /\ List.length weekdays = 5.
Proof.
  intros Hmain. unfold main in Hmain. cbv zeta in Hmain.
  match type of Hmain with
  | context [empty ?d] => destruct (empty d)
  end; cbn [negb] in Hmain; cbv iota in Hmain.
  - left. injection Hmain as <-. reflexivity.
  - right.
    apply bind_ok in Hmain. destruct Hmain as [dated [_ Hmain]].
    apply bind_ok in Hmain. destruct Hmain as [og_df [_ Hmain]].
    cbv zeta in Hmain.
    apply bind_ok in Hmain. destruct Hmain as [merged_df [_ Hmain]].
    apply bind_ok in Hmain. destruct Hmain as [sums [Hsums Hmain]].
    apply bind_ok in Hmain. destruct Hmain as [avgs [Havgs Hmain]].
    apply bind_ok in Hmain. destruct Hmain as [meds [Hmeds Hmain]].
    apply bind_ok in Hmain. destruct Hmain as [weekdays [Hweekdays Hmain]].
    injection Hmain as <-.
    exists (map fst (rows merged_df)), sums, avgs, meds, weekdays.
    rewrite length_map.
    apply column_length in Hsums, Havgs, Hmeds, Hweekdays.
    split; [reflexivity |].
    repeat split; assumption.
Qed.

(** The page of the three-record scenario. *)
Lemma page_is_complete_witness :
  let p : Page :=
    {| top := page_top;
       col1 := [Subheader "Net Amount by Month";
                BarChart "Net Amount per Month"
                  ["January 2024"; "February 2024"] [30; 20]%float;
                Subheader "Monthly Average & Median";
                GroupedBars
                  [("Average", (["January 2024"; "February 2024"], [15; 20]%float));
                   ("Median", (["January 2024"; "February 2024"], [15; 20]%float))]];
       col2 := [Subheader "Net Amount per Weekday";
                BarChart "Net amount per weekday"
                  ["Monday"; "Tuesday"; "Wednesday"; "Thursday"; "Friday"]
                  [PrimFloat.nan; PrimFloat.nan; PrimFloat.nan; 20; 30]%float] |} in
  p = {| top := page_top; col1 := []; col2 := [] |}
  \/ exists (months : list string) (sums avgs meds weekdays : list float),
       p = {| top := page_top;
              col1 := [Subheader "Net Amount by Month";
                       BarChart "Net Amount per Month" months sums;
                       Subheader "Monthly Average & Median";
                       GroupedBars [("Average", (months, avgs));
                                    ("Median", (months, meds))]];
              col2 := [Subheader "Net Amount per Weekday";
                       BarChart "Net amount per weekday"
                         ["Monday"; "Tuesday"; "Wednesday"; "Thursday"; "Friday"]
                         weekdays] |}
       /\ List.length sums = List.length months
       /\ List.length avgs = List.length months
       /\ List.length meds = List.length months
       /\ List.length weekdays = 5.
Proof.
  intros p. apply (page_is_complete (Some three_records) p).
  vm_compute. reflexivity.
Defined.
